(** * pyspcwebgw: the SPC Web Gateway client, as a state-passing model

    The development follows the Python package file by file:
    - [utils.py]   : [_load_enum];
    - [area.py]    : class [Area];
    - [zone.py]    : class [Zone];
    - [__init__.py]: class [SpcWebGateway].

    Python objects live in a store and are named by their position in it, so
    that the [Zone] held by an area's [zones] list and the one held by the
    gateway's [_zones] dict are one object.  Coroutines are functions from
    the world to an outcome and the next world; an exception keeps the writes
    made before it was raised.  Logging is not modelled. *)

From stdpp Require Import gmap strings list fin_maps.

(** ** const.py *)

(** Modelled from the spec: [const.py] is not part of the sources read here.
    The area modes are the four members that [AREA_MODE_COMMAND_MAP] lists
    and the data model of the specification names. *)
Inductive AreaMode : Type :=
  | UNSET
  | PART_SET_A
  | PART_SET_B
  | FULL_SET.

#[global] Instance AreaMode_eq_dec : EqDecision AreaMode.
Proof. solve_decision. Defined.

(** The rest of [const.py]: the three zone enumerations, and for each
    enumeration the call [Enum(value)], which gives the member carrying that
    value and raises [ValueError] ([None] here) when no member does. *)
Class Const : Type := {
  AreaMode_call : string -> option AreaMode;
  ZoneInput : Type;
  ZoneInput_call : string -> option ZoneInput;
  ZoneType : Type;
  ZoneType_call : string -> option ZoneType;
  ZoneStatus : Type;
  ZoneStatus_call : string -> option ZoneStatus;
}.

(** ** utils.py *)

(** [_load_enum(enum, value, default=None)]: [enum(value)], and [default]
    when that raises [ValueError].  A Python value that may be [None] is an
    [option]. *)
Definition _load_enum {E : Type} (enum : string -> option E) (value : string)
    (default : option E) : option E :=
  match enum value with
  | Some member => Some member
  | None => default
  end.

(** ** Decoded payloads *)

(** The panel record and the answer to a command are only passed along or
    subscripted by key, so they stay untyped. *)
#[local] Unset Elimination Schemes.
Inductive json : Type :=
  | JNull
  | JStr (s : string)
  | JNum (n : Z)
  | JArr (items : list json)
  | JObj (fields : list (string * json)).
#[local] Set Elimination Schemes.

(** An element of [data['data']['area']].  The keys the code subscripts are
    fields; the two it reads with [.get(key, 'N/A')] may be absent. *)
Record spc_area : Type := {
  area_id : string;
  area_name : string;
  area_mode : string;
  area_last_set_user_name : option string;
  area_last_unset_user_name : option string;
}.

(** An element of [data['data']['zone']]. *)
Record spc_zone : Type := {
  zone_id : string;
  zone_zone_name : string;
  zone_area : string;
  zone_input : string;
  zone_type : string;
  zone_status : string;
}.

(** A zone record given key by key, for one that may lack a key: under each
    of the three keys that a refresh reads, the value if the key is there. *)
Record partial_zone : Type := {
  partial_input : option string;
  partial_type : option string;
  partial_status : option string;
}.

(** [data['data']['zone']] of a scoped zone fetch is a list or one record.
    The last two shapes are a list whose first record is given key by key
    (the records after it are not read), and one such record. *)
Inductive zone_reply : Type :=
  | ZoneList (l : list spc_zone)
  | ZoneSingle (z : spc_zone)
  | ZonePartialList (first : partial_zone)
  | ZonePartialSingle (record : partial_zone).

(** The resources the client fetches, with the path it builds for each. *)
Inductive Resource : Type :=
  | PanelInfo
  | AllZones
  | AllAreas
  | OneZone (id : string)
  | OneArea (id : string).

Definition path (r : Resource) : string :=
  match r with
  | PanelInfo => "spc/panel"
  | AllZones => "spc/zone"
  | AllAreas => "spc/area"
  | OneZone id => "spc/zone/" +:+ id
  | OneArea id => "spc/area/" +:+ id
  end.

(** What [data['data'][...]] holds in a successful answer for a resource. *)
Definition Payload (r : Resource) : Type :=
  match r with
  | PanelInfo => json
  | AllZones => list spc_zone
  | AllAreas => list spc_area
  | OneZone _ => zone_reply
  | OneArea _ => list spc_area
  end.

(** The far end of [_async_request].  An answer depends on the length of the
    trace at the time of the request, so that the controller may change
    between two fetches.  [None] is the [False] that every failure (time-out,
    client error, HTTP status, payload status) is collapsed into. *)
Record Controller : Type := {
  on_get : nat -> forall r : Resource, option (Payload r);
  on_put : nat -> string -> option json;
}.

(** ** The store *)

Definition loc : Type := nat.

(** There is one gateway; entities refer back to it. *)
Variant gateway_ref : Type := the_gateway.

Inductive Entity : Type :=
  | AreaEntity (a : loc)
  | ZoneEntity (z : loc).

#[global] Instance Entity_eq_dec : EqDecision Entity.
Proof. solve_decision. Defined.

Inductive Request : Type :=
  | GET (url : string)
  | PUT (url : string).

#[global] Instance Request_eq_dec : EqDecision Request.
Proof. solve_decision. Defined.

(** The observer is a coroutine function of the caller, known by a handle. *)
Definition Callback : Type := nat.

(** What a run does to the outside: requests sent, and observer calls handed
    to [ensure_future]. *)
Inductive Event : Type :=
  | Sent (r : Request)
  | Notified (cb : Callback) (e : Entity).

#[global] Instance Event_eq_dec : EqDecision Event.
Proof. solve_decision. Defined.

Inductive exn : Type :=
  | IndexError
  | KeyError
  | TypeError
  | AttributeError
  | RuntimeError
  | InvalidReference (* not a Python exception: a position outside the store *).

#[global] Instance exn_eq_dec : EqDecision exn.
Proof. solve_decision. Defined.

Inductive outcome (A : Type) : Type :=
  | Return (a : A)
  | Raise (e : exn).
Arguments Return {A} a.
Arguments Raise {A} e.

Section Model.
Context `{C : Const}.

(** Instance attributes of an [Area]. *)
Record Area : Type := mkArea {
  Area__gateway : gateway_ref;
  Area__id : string;
  Area__name : string;
  Area__verified_alarm : bool;
  Area_zones : option (list loc);
  Area__mode : option AreaMode;
  Area__last_set_user_name : string;
  Area__last_unset_user_name : string;
}.

(** Instance attributes of a [Zone]. *)
Record Zone : Type := mkZone {
  Zone__gateway : gateway_ref;
  Zone__id : string;
  Zone__name : string;
  Zone__area : loc;
  Zone__input : option ZoneInput;
  Zone__type : option ZoneType;
  Zone__status : option ZoneStatus;
}.

(** Instance attributes of the [SpcWebGateway]; the event loop, the session,
    the two URLs and the websocket belong to the transport. *)
Record SpcWebGateway : Type := mkGateway {
  _info : json;
  _areas : gmap string loc;
  _zones : gmap string loc;
  _async_callback : option Callback;
}.

Record World : Type := mkWorld {
  gateway : SpcWebGateway;
  area_objs : list Area;
  zone_objs : list Zone;
  trace : list Event;
  controller : Controller;
}.

(** Coroutines. *)
Definition M (A : Type) : Type := World -> outcome A * World.

Definition ret {A : Type} (a : A) : M A := fun w => (Return a, w).

Definition raise {A : Type} (e : exn) : M A := fun w => (Raise e, w).

Definition bind {A B : Type} (c : M A) (k : A -> M B) : M B :=
  fun w =>
    match c w with
    | (Return a, w') => k a w'
    | (Raise e, w') => (Raise e, w')
    end.

(** *** Primitive steps *)

Definition get_gateway : M SpcWebGateway := fun w => (Return (gateway w), w).

Definition put_gateway (g : SpcWebGateway) : M unit :=
  fun w => (Return tt, mkWorld g (area_objs w) (zone_objs w) (trace w) (controller w)).

Definition emit (e : Event) : M unit :=
  fun w =>
    (Return tt,
     mkWorld (gateway w) (area_objs w) (zone_objs w) (trace w ++ [e]) (controller w)).

Definition read_area (a : loc) : M Area :=
  fun w =>
    match area_objs w !! a with
    | Some o => (Return o, w)
    | None => (Raise InvalidReference, w)
    end.

Definition write_area (a : loc) (o : Area) : M unit :=
  fun w =>
    (Return tt,
     mkWorld (gateway w) (<[a := o]> (area_objs w)) (zone_objs w) (trace w) (controller w)).

Definition new_area (o : Area) : M loc :=
  fun w =>
    (Return (length (area_objs w)),
     mkWorld (gateway w) (area_objs w ++ [o]) (zone_objs w) (trace w) (controller w)).

Definition read_zone (z : loc) : M Zone :=
  fun w =>
    match zone_objs w !! z with
    | Some o => (Return o, w)
    | None => (Raise InvalidReference, w)
    end.

Definition write_zone (z : loc) (o : Zone) : M unit :=
  fun w =>
    (Return tt,
     mkWorld (gateway w) (area_objs w) (<[z := o]> (zone_objs w)) (trace w) (controller w)).

Definition new_zone (o : Zone) : M loc :=
  fun w =>
    (Return (length (zone_objs w)),
     mkWorld (gateway w) (area_objs w) (zone_objs w ++ [o]) (trace w) (controller w)).

Definition lift {A : Type} (o : outcome A) : M A := fun w => (o, w).

End Model.

Notation "x <- c ;; k" := (bind c (fun x => k))
  (at level 100, c at next level, right associativity).
Notation "c ;;; k" := (bind c (fun _ => k))
  (at level 100, right associativity).

Section Program.
Context `{C : Const}.

(** ** __init__.py: the transport *)

(** [async_get_request(method)]. *)
Definition async_get_request (r : Resource) : M (option (Payload r)) :=
  fun w =>
    (Return (on_get (controller w) (length (trace w)) r),
     mkWorld (gateway w) (area_objs w) (zone_objs w)
       (trace w ++ [Sent (GET (path r))]) (controller w)).

(** [async_put_request(method)]. *)
Definition async_put_request (url : string) : M (option json) :=
  fun w =>
    (Return (on_put (controller w) (length (trace w)) url),
     mkWorld (gateway w) (area_objs w) (zone_objs w)
       (trace w ++ [Sent (PUT url)]) (controller w)).

(** ** area.py *)

Definition Area_SUPPORTED_SIA_CODES : gset string :=
  {[ "CG"; "OG"; "BV"; "CL"; "NL"; "OP"; "ZG" ]}.

(** [Area._update(api_data, sia_code=None)]. *)
Definition Area__update (self : Area) (api_data : spc_area)
    (sia_code : option string) : Area :=
  {| Area__gateway := Area__gateway self;
     Area__id := Area__id self;
     Area__name := Area__name self;
     Area__verified_alarm := bool_decide (sia_code = Some "BV");
     Area_zones := Area_zones self;
     Area__mode := _load_enum AreaMode_call (area_mode api_data) None;
     Area__last_set_user_name :=
       default "N/A" (area_last_set_user_name api_data);
     Area__last_unset_user_name :=
       default "N/A" (area_last_unset_user_name api_data) |}.

(** [Area.__init__(gateway, spc_area)].  The three attributes that only
    [_update] assigns do not exist before the call; whatever stands for them
    here is overwritten by it. *)
Definition Area__init__ (gw : gateway_ref) (spc_area : spc_area) : Area :=
  Area__update
    {| Area__gateway := gw;
       Area__id := area_id spc_area;
       Area__name := area_name spc_area;
       Area__verified_alarm := false;
       Area_zones := None;
       Area__mode := None;
       Area__last_set_user_name := "";
       Area__last_unset_user_name := "" |}
    spc_area None.

(** The properties [id], [name], [verified_alarm] and [mode]. *)
Definition Area_id (self : Area) : string := Area__id self.
Definition Area_name (self : Area) : string := Area__name self.
Definition Area_verified_alarm (self : Area) : bool := Area__verified_alarm self.
Definition Area_mode (self : Area) : option AreaMode := Area__mode self.

(** The property [last_changed_by]. *)
Definition Area_last_changed_by (self : Area) : string :=
  if bool_decide (Area__mode self = Some UNSET)
  then Area__last_set_user_name self
  else Area__last_unset_user_name self.

(** [Area.update_state(sia_code=None)]. *)
Definition Area_update_state (self : loc) (sia_code : option string) : M unit :=
  o <- read_area self ;;
  data <- async_get_request (OneArea (Area_id o)) ;;
  match data with
  | Some areas =>
      match areas with
      | data :: _ => write_area self (Area__update o data None)
      | [] => raise IndexError
      end
  | None => ret tt
  end.

(** ** zone.py *)

Definition Zone_SUPPORTED_SIA_CODES : gset string :=
  {[ "ZO"; "ZC"; "ZX"; "ZD"; "ZM"; "BA"; "BB"; "BU"; "BR"; "BC" ]}.

(** [Zone._update(spc_zone, sia_code=None)]. *)
Definition Zone__update (self : Zone) (spc_zone : spc_zone)
    (sia_code : option string) : Zone :=
  {| Zone__gateway := Zone__gateway self;
     Zone__id := Zone__id self;
     Zone__name := Zone__name self;
     Zone__area := Zone__area self;
     Zone__input := _load_enum ZoneInput_call (zone_input spc_zone) None;
     Zone__type := _load_enum ZoneType_call (zone_type spc_zone) None;
     Zone__status := _load_enum ZoneStatus_call (zone_status spc_zone) None |}.

(** [Zone._update] on a record given key by key: the same three assignments
    in the same order; a key that is not there raises [KeyError], and the
    assignments made before it stay. *)
Definition Zone__update_partial (self : Zone) (spc_zone : partial_zone)
    (sia_code : option string) : outcome unit * Zone :=
  match partial_input spc_zone with
  | Some input =>
      let self :=
        mkZone (Zone__gateway self) (Zone__id self) (Zone__name self) (Zone__area self)
          (_load_enum ZoneInput_call input None) (Zone__type self) (Zone__status self) in
      match partial_type spc_zone with
      | Some type =>
          let self :=
            mkZone (Zone__gateway self) (Zone__id self) (Zone__name self) (Zone__area self)
              (Zone__input self) (_load_enum ZoneType_call type None) (Zone__status self) in
          match partial_status spc_zone with
          | Some status =>
              (Return tt,
               mkZone (Zone__gateway self) (Zone__id self) (Zone__name self)
                 (Zone__area self) (Zone__input self) (Zone__type self)
                 (_load_enum ZoneStatus_call status None))
          | None => (Raise KeyError, self)
          end
      | None => (Raise KeyError, self)
      end
  | None => (Raise KeyError, self)
  end.

(** [Zone.__init__(gateway, area, spc_zone)]; as for an area, the attributes
    that [_update] assigns start from nothing. *)
Definition Zone__init__ (gw : gateway_ref) (area : loc) (spc_zone : spc_zone) : Zone :=
  Zone__update
    {| Zone__gateway := gw;
       Zone__id := zone_id spc_zone;
       Zone__name := zone_zone_name spc_zone;
       Zone__area := area;
       Zone__input := None;
       Zone__type := None;
       Zone__status := None |}
    spc_zone None.

(** The properties [id], [name], [input], [type], [status] and [area]. *)
Definition Zone_id (self : Zone) : string := Zone__id self.
Definition Zone_name (self : Zone) : string := Zone__name self.
Definition Zone_input (self : Zone) : option ZoneInput := Zone__input self.
Definition Zone_type (self : Zone) : option ZoneType := Zone__type self.
Definition Zone_status (self : Zone) : option ZoneStatus := Zone__status self.
Definition Zone_area (self : Zone) : loc := Zone__area self.

(** [Zone.update_state(sia_code=None)]. *)
Definition Zone_update_state (self : loc) (sia_code : option string) : M unit :=
  o <- read_zone self ;;
  data <- async_get_request (OneZone (Zone_id o)) ;;
  match data with
  | Some reply =>
      match reply with
      | ZoneList (first :: _) => write_zone self (Zone__update o first sia_code)
      | ZoneList [] => raise IndexError
      | ZoneSingle record => write_zone self (Zone__update o record sia_code)
      | ZonePartialList record | ZonePartialSingle record =>
          write_zone self (Zone__update_partial o record sia_code).2 ;;;
          lift (Zone__update_partial o record sia_code).1
      end
  | None => ret tt
  end.

(** ** __init__.py: the gateway *)

(** [SpcWebGateway.__init__]: nothing is loaded yet. *)
Definition SpcWebGateway__init__ (async_callback : option Callback) : SpcWebGateway :=
  {| _info := JNull;
     _areas := ∅;
     _zones := ∅;
     _async_callback := async_callback |}.

(** The world right after the gateway was constructed: no entity exists and
    nothing was sent. *)
Definition fresh_world (async_callback : option Callback) (ctl : Controller) : World :=
  mkWorld (SpcWebGateway__init__ async_callback) [] [] [] ctl.

(** [value[key]] on a decoded value, for a string key. *)
Definition subscript (value : json) (key : string) : outcome json :=
  match value with
  | JObj fields =>
      match list_find (fun kv => kv.1 = key) fields with
      | Some (_, (_, v)) => Return v
      | None => Raise KeyError
      end
  | _ => Raise TypeError
  end.

(** The property [serial_number]. *)
Definition serial_number (g : SpcWebGateway) : outcome json :=
  match subscript (_info g) "data" with
  | Return data =>
      match subscript data "panel" with
      | Return panel => subscript panel "sn"
      | Raise e => Raise e
      end
  | Raise e => Raise e
  end.

(** [_async_get_panel_info], [_async_get_zones], [_async_get_areas]: the
    payload when there is data, and [None] (falling off the end) otherwise. *)
Definition _async_get_panel_info : M json :=
  data <- async_get_request PanelInfo ;;
  match data with
  | Some panel => ret panel
  | None => ret JNull
  end.

Definition _async_get_zones : M (option (list spc_zone)) :=
  data <- async_get_request AllZones ;;
  match data with
  | Some zone => ret (Some zone)
  | None => ret None
  end.

Definition _async_get_areas : M (option (list spc_area)) :=
  data <- async_get_request AllAreas ;;
  match data with
  | Some area => ret (Some area)
  | None => ret None
  end.

(** [not x] for [x] a list or [None]. *)
Definition not_ {A : Type} (x : option (list A)) : bool :=
  match x with
  | Some (_ :: _) => false
  | Some [] | None => true
  end.

(** A [for] loop over a list. *)
Fixpoint for_each {A : Type} (l : list A) (body : A -> M unit) : M unit :=
  match l with
  | [] => ret tt
  | x :: rest => body x ;;; for_each rest body
  end.

(** [[Zone(self, area, zone) for zone in zones if zone['area'] == spc_area['id']]] *)
Fixpoint area_zones_of (area : loc) (spc_area : spc_area) (zones : list spc_zone)
    : M (list loc) :=
  match zones with
  | [] => ret []
  | zone :: rest =>
      if bool_decide (zone_area zone = area_id spc_area)
      then z <- new_zone (Zone__init__ the_gateway area zone) ;;
           zs <- area_zones_of area spc_area rest ;;
           ret (z :: zs)
      else area_zones_of area spc_area rest
  end.

(** [{z.id: z for z in area_zones}], filled from left to right. *)
Fixpoint zones_by_id (area_zones : list loc) (acc : gmap string loc)
    : M (gmap string loc) :=
  match area_zones with
  | [] => ret acc
  | z :: rest =>
      o <- read_zone z ;;
      zones_by_id rest (<[Zone_id o := z]> acc)
  end.

(** The body of the [for spc_area in areas] loop of [async_load_parameters]. *)
Definition load_area (zones : list spc_zone) (spc_area : spc_area) : M unit :=
  (* area = Area(self, spc_area) *)
  area <- new_area (Area__init__ the_gateway spc_area) ;;
  area_zones <- area_zones_of area spc_area zones ;;
  (* area.zones = area_zones *)
  o <- read_area area ;;
  write_area area
    (mkArea (Area__gateway o) (Area__id o) (Area__name o)
       (Area__verified_alarm o) (Some area_zones) (Area__mode o)
       (Area__last_set_user_name o) (Area__last_unset_user_name o)) ;;;
  (* self._areas[area.id] = area *)
  o <- read_area area ;;
  g <- get_gateway ;;
  put_gateway
    (mkGateway (_info g) (<[Area_id o := area]> (_areas g)) (_zones g)
       (_async_callback g)) ;;;
  (* self._zones.update({z.id: z for z in area_zones}) *)
  by_id <- zones_by_id area_zones ∅ ;;
  g <- get_gateway ;;
  put_gateway
    (mkGateway (_info g) (_areas g) (by_id ∪ _zones g) (_async_callback g)).

(** [async_load_parameters]. *)
Definition async_load_parameters : M bool :=
  info <- _async_get_panel_info ;;
  g <- get_gateway ;;
  put_gateway (mkGateway info (_areas g) (_zones g) (_async_callback g)) ;;;
  zones <- _async_get_zones ;;
  areas <- _async_get_areas ;;
  if not_ zones || not_ areas then ret false
  else
    let zones := default [] zones in
    let areas := default [] areas in
    if bool_decide (1 < length areas) then ret false
    else
      for_each areas (load_area zones) ;;;
      ret true.

(** The values a caller may pass to [change_mode]. *)
Inductive py_value : Type :=
  | PyNone
  | PyStr (s : string)
  | PyInt (n : Z)
  | PyAreaMode (m : AreaMode)
  | PyArea (a : loc).

Definition AREA_MODE_COMMAND_MAP (m : AreaMode) : string :=
  match m with
  | UNSET => "unset"
  | PART_SET_A => "set_a"
  | PART_SET_B => "set_b"
  | FULL_SET => "set"
  end.

(** [self._areas.get(key)]: the keys held are strings. *)
Definition areas_get (g : SpcWebGateway) (key : py_value) : option loc :=
  match key with
  | PyStr k => _areas g !! k
  | _ => None
  end.

(** [change_mode(area, new_mode)].  A value that is not an [Area] is looked
    up in [_areas]; [area.id] on the [None] of a failed lookup is an
    [AttributeError]. *)
Definition change_mode (area new_mode : py_value) : M (option json) :=
  match new_mode with
  | PyAreaMode mode =>
      g <- get_gateway ;;
      let area :=
        match area with
        | PyArea a => Some a
        | _ => areas_get g area
        end in
      match area with
      | Some area =>
          o <- read_area area ;;
          let url := "spc/area/" +:+ Area_id o +:+ "/" +:+ AREA_MODE_COMMAND_MAP mode in
          data <- async_put_request url ;;
          Area_update_state area None ;;;
          ret data
      | None => raise AttributeError
      end
  | _ => raise TypeError
  end.

(** [data['data']['sia']] of a websocket message. *)
Record sia : Type := {
  sia_address : string;
  sia_code : string;
}.

(** [entity.update_state(sia_code)], dispatched on the class of [entity]. *)
Definition Entity_update_state (entity : Entity) (sia_code : option string) : M unit :=
  match entity with
  | AreaEntity a => Area_update_state a sia_code
  | ZoneEntity z => Zone_update_state z sia_code
  end.

(** The end of [_async_ws_handler], from [if not entity] on. *)
Definition dispatch (entity : option Entity) (sia_code : string) : M unit :=
  match entity with
  | None => ret tt
  | Some entity =>
      Entity_update_state entity (Some sia_code) ;;;
      g <- get_gateway ;;
      match _async_callback g with
      | Some callback => emit (Notified callback entity)
      | None => ret tt
      end
  end.

(** [_async_ws_handler(data)]. *)
Definition _async_ws_handler (sia_message : sia) : M unit :=
  let spc_id := sia_address sia_message in
  let sia_code := sia_code sia_message in
  g <- get_gateway ;;
  if bool_decide (sia_code ∈ Area_SUPPORTED_SIA_CODES) then
    if bool_decide (size (_areas g) = 1) then
      match (map_to_list (_areas g)).*2 with
      | entity :: _ => dispatch (Some (AreaEntity entity)) sia_code
      | [] => raise IndexError
      end
    else raise RuntimeError
  else if bool_decide (sia_code ∈ Zone_SUPPORTED_SIA_CODES) then
    dispatch (ZoneEntity <$> _zones g !! spc_id) sia_code
  else ret tt.

(** ** zone.py: the property [unique_id] *)

(** What reading an attribute of a [Zone] may give: for a name of the class,
    whatever the class makes of it (the value of a property, a bound method,
    the code set); for a name of the instance, the value stored. *)
Inductive attribute : Type :=
  | OfClass (name : string)
  | AGateway (g : gateway_ref)
  | AStr (s : string)
  | AArea (a : loc)
  | AInput (i : option ZoneInput)
  | AType (t : option ZoneType)
  | AStatus (s : option ZoneStatus).

(** The names class [Zone] defines. *)
Definition Zone_class_dict : list string :=
  [ "SUPPORTED_SIA_CODES"; "__init__"; "__str__"; "id"; "unique_id"; "name";
    "input"; "type"; "status"; "area"; "_update"; "update_state" ].

(** The names [__init__] and [_update] assign on the instance. *)
Definition Zone_instance_dict (self : Zone) : list (string * attribute) :=
  [ ("_gateway", AGateway (Zone__gateway self));
    ("_id", AStr (Zone__id self));
    ("_name", AStr (Zone__name self));
    ("_area", AArea (Zone__area self));
    ("_input", AInput (Zone__input self));
    ("_type", AType (Zone__type self));
    ("_status", AStatus (Zone__status self)) ].

(** [self.name] for a name that [object] does not define: the class, then
    the instance, then [AttributeError]. *)
Definition Zone_getattr (self : Zone) (name : string) : outcome attribute :=
  if bool_decide (name ∈ Zone_class_dict) then Return (OfClass name)
  else
    match list_find (fun kv => kv.1 = name) (Zone_instance_dict self) with
    | Some (_, (_, v)) => Return v
    | None => Raise AttributeError
    end.

(** [str()] of a decoded value is left to Python. *)
Variable str : json -> string.

(** The property [unique_id]: ["{}-{}".format(self.gateway.serial_number, self.id)]. *)
Definition Zone_unique_id (self : loc) : M string :=
  o <- read_zone self ;;
  gw <- lift (Zone_getattr o "gateway") ;;
  match gw with
  | AGateway the_gateway =>
      g <- get_gateway ;;
      sn <- lift (serial_number g) ;;
      ret (str sn +:+ "-" +:+ Zone_id o)
  | _ => raise AttributeError
  end.

End Program.

(** ** Notions the statements use *)

Section Notions.
Context `{C : Const}.

(** [not data] for the answer to a request. *)
Definition no_data {A : Type} (data : option A) : bool :=
  match data with
  | None => true
  | Some _ => false
  end.

(** The entity exists and the controller has no data for its scoped fetch,
    were it sent next. *)
Definition fetch_yields_nothing (w : World) (e : Entity) : bool :=
  match e with
  | AreaEntity a =>
      match area_objs w !! a with
      | Some o => no_data (on_get (controller w) (length (trace w)) (OneArea (Area_id o)))
      | None => false
      end
  | ZoneEntity z =>
      match zone_objs w !! z with
      | Some o => no_data (on_get (controller w) (length (trace w)) (OneZone (Zone_id o)))
      | None => false
      end
  end.

(** The observer calls of a trace, in order. *)
Definition observer_calls (t : list Event) : list (Callback * Entity) :=
  omap (fun ev => match ev with Notified cb e => Some (cb, e) | Sent _ => None end) t.

(** The requests of a trace, in order. *)
Definition requests (t : list Event) : list Request :=
  omap (fun ev => match ev with Sent r => Some r | Notified _ _ => None end) t.

(** An address names no loaded entity: it is a key of neither dict. *)
Definition matches_no_entity (w : World) (address : string) : bool :=
  no_data (_zones (gateway w) !! address) && no_data (_areas (gateway w) !! address).

(** A message is discarded: the handler returns, the observer is not called. *)
Definition discarded (w : World) (message : sia) : Prop :=
  (_async_ws_handler message w).1 = Return tt ∧
  observer_calls (trace (_async_ws_handler message w).2) = observer_calls (trace w).

(** The reply to a scoped zone fetch is a list with nothing in it. *)
Definition empty_list_reply (data : option zone_reply) : bool :=
  match data with
  | Some (ZoneList []) => true
  | _ => false
  end.

(** The values under [input], [type] and [status] of the record that a
    scoped zone reply is read from, when the reply has such a record and the
    record has the three keys. *)
Definition zone_reply_values (reply : zone_reply) : option (string * string * string) :=
  match reply with
  | ZoneList (record :: _) | ZoneSingle record =>
      Some (zone_input record, zone_type record, zone_status record)
  | ZoneList [] => None
  | ZonePartialList record | ZonePartialSingle record =>
      match partial_input record, partial_type record, partial_status record with
      | Some input, Some type, Some status => Some (input, type, status)
      | _, _, _ => None
      end
  end.

(** The answer to a scoped zone fetch is one a refresh gets through: no
    data, or a reply with the three values. *)
Definition readable (data : option zone_reply) : bool :=
  match data with
  | Some reply =>
      match zone_reply_values reply with
      | Some _ => true
      | None => false
      end
  | None => true
  end.

(** The zone list and the area list that the controller reports to a load
    started in [w]: the answers to its second and to its third request. *)
Definition reported_zones (w : World) : option (list spc_zone) :=
  on_get (controller w) (S (length (trace w))) AllZones.

Definition reported_areas (w : World) : option (list spc_area) :=
  on_get (controller w) (S (S (length (trace w)))) AllAreas.

(** The world after the three fetches of a load, before any entity is made. *)
Definition fetched (w : World) : World :=
  let info :=
    match on_get (controller w) (length (trace w)) PanelInfo with
    | Some panel => panel
    | None => JNull
    end in
  mkWorld
    (mkGateway info (_areas (gateway w)) (_zones (gateway w))
       (_async_callback (gateway w)))
    (area_objs w) (zone_objs w)
    (trace w ++ [Sent (GET "spc/panel"); Sent (GET "spc/zone"); Sent (GET "spc/area")])
    (controller w).

(** The records of the zone list that name the area. *)
Definition zones_in (spc_area : spc_area) (zones : list spc_zone) : list spc_zone :=
  filter (fun zone => zone_area zone = area_id spc_area) zones.

(** The world one turn of the loading loop leaves. *)
Definition with_area (w : World) (zones : list spc_zone) (spc_area : spc_area) : World :=
  let area := length (area_objs w) in
  let records := zones_in spc_area zones in
  let area_zones := seq (length (zone_objs w)) (length records) in
  let o := Area__init__ the_gateway spc_area in
  mkWorld
    (mkGateway (_info (gateway w))
       (<[area_id spc_area := area]> (_areas (gateway w)))
       (list_to_map (reverse (zip (zone_id <$> records) area_zones))
          ∪ _zones (gateway w))
       (_async_callback (gateway w)))
    (area_objs w ++
       [mkArea (Area__gateway o) (Area__id o) (Area__name o)
          (Area__verified_alarm o) (Some area_zones) (Area__mode o)
          (Area__last_set_user_name o) (Area__last_unset_user_name o)])
    (zone_objs w ++ (Zone__init__ the_gateway area <$> records))
    (trace w) (controller w).

(** The zones that the areas of the gateway hold: the members of the [zones]
    list of an area that is a value of [_areas]. *)
Definition held_by_an_area (w : World) (z : loc) : Prop :=
  exists (k : string) (a : loc) (o : Area) (zs : list loc),
    _areas (gateway w) !! k = Some a /\ area_objs w !! a = Some o /\
    Area_zones o = Some zs /\ z ∈ zs.

(** The two dicts and the [zones] lists tell one story. *)
Record registry_consistent (w : World) : Prop := {
  (* the area of every zone is a value of [_areas] *)
  back_references :
    forall (z : loc) (o : Zone),
      zone_objs w !! z = Some o ->
      exists k : string, _areas (gateway w) !! k = Some (Zone_area o);
  (* a zone held by an area is the entry of [_zones] under its identifier *)
  held_zones_are_entries :
    forall z : loc,
      held_by_an_area w z ->
      exists o : Zone, zone_objs w !! z = Some o /\
        _zones (gateway w) !! Zone_id o = Some z;
  (* an entry of [_zones] is a zone with that identifier, held by an area *)
  entries_are_held_zones :
    forall (k : string) (z : loc),
      _zones (gateway w) !! k = Some z ->
      held_by_an_area w z /\ Zone_id <$> zone_objs w !! z = Some k;
  (* no [zones] list holds a zone twice *)
  no_duplicates :
    forall (k : string) (a : loc) (o : Area) (zs : list loc),
      _areas (gateway w) !! k = Some a -> area_objs w !! a = Some o ->
      Area_zones o = Some zs -> NoDup zs;
}.

(** The gateway has loaded nothing yet: no entity exists, both dicts are
    empty. *)
Definition nothing_loaded (w : World) : Prop :=
  area_objs w = [] /\ zone_objs w = [] /\
  _areas (gateway w) = ∅ /\ _zones (gateway w) = ∅.

(** The same world, talking to another controller. *)
Definition with_controller (ctl : Controller) (w : World) : World :=
  mkWorld (gateway w) (area_objs w) (zone_objs w) (trace w) ctl.

End Notions.

(** ** A sample installation *)

(** A small [const.py] to run the model on: the modes by their number, and
    two members for each zone enumeration. *)
Inductive SampleInput : Type := CLOSED | OPEN.
Inductive SampleType : Type := ALARM | ENTRY_EXIT.
Inductive SampleStatus : Type := OK | INHIBIT.

Definition sample_const : Const :=
  {| AreaMode_call v :=
       if bool_decide (v = "0") then Some UNSET
       else if bool_decide (v = "1") then Some PART_SET_A
       else if bool_decide (v = "2") then Some PART_SET_B
       else if bool_decide (v = "3") then Some FULL_SET
       else None;
     ZoneInput := SampleInput;
     ZoneInput_call v :=
       if bool_decide (v = "0") then Some CLOSED
       else if bool_decide (v = "1") then Some OPEN
       else None;
     ZoneType := SampleType;
     ZoneType_call v :=
       if bool_decide (v = "0") then Some ALARM
       else if bool_decide (v = "1") then Some ENTRY_EXIT
       else None;
     ZoneStatus := SampleStatus;
     ZoneStatus_call v :=
       if bool_decide (v = "0") then Some OK
       else if bool_decide (v = "1") then Some INHIBIT
       else None |}.

Definition house : spc_area :=
  {| area_id := "1"; area_name := "House"; area_mode := "0";
     area_last_set_user_name := Some "Ann";
     area_last_unset_user_name := Some "Bob" |}.

Definition garage : spc_area :=
  {| area_id := "2"; area_name := "Garage"; area_mode := "3";
     area_last_set_user_name := None;
     area_last_unset_user_name := None |}.

Definition hall : spc_zone :=
  {| zone_id := "1"; zone_zone_name := "Hall"; zone_area := "1";
     zone_input := "0"; zone_type := "0"; zone_status := "0" |}.

Definition kitchen : spc_zone :=
  {| zone_id := "2"; zone_zone_name := "Kitchen"; zone_area := "1";
     zone_input := "1"; zone_type := "0"; zone_status := "0" |}.

(** A second record under the identifier of [hall]. *)
Definition hall_again : spc_zone :=
  {| zone_id := "1"; zone_zone_name := "Hall (copy)"; zone_area := "1";
     zone_input := "1"; zone_type := "1"; zone_status := "0" |}.

Definition panel : json :=
  JObj [("type", JStr "SPC4000"); ("sn", JStr "123456")].

(** A controller that always answers, with the given lists and, for a scoped
    fetch, with the given replies. *)
Definition answering (zones : list spc_zone) (areas : list spc_area)
    (zone : zone_reply) (area : list spc_area) : Controller :=
  {| on_get _ r :=
       match r as r return option (Payload r) with
       | PanelInfo => Some panel
       | AllZones => Some zones
       | AllAreas => Some areas
       | OneZone _ => Some zone
       | OneArea _ => Some area
       end;
     on_put _ _ := Some (JObj [("status", JStr "success")]) |}.

(** A controller that never does. *)
Definition silent : Controller :=
  {| on_get _ _ := None; on_put _ _ := None |}.

(** The sample controller: one area, two zones. *)
Definition sample_controller : Controller :=
  answering [hall; kitchen] [house] (ZoneSingle kitchen) [house].

(** The world after a successful load from the sample controller. *)
Definition loaded_world : World (C := sample_const) :=
  (async_load_parameters (fresh_world (Some 0) sample_controller)).2.


(** The objects of [loaded_world]. *)
Definition house_area : Area :=
  mkArea the_gateway "1" "House" false (Some [0; 1]) (Some UNSET) "Ann" "Bob".

Definition kitchen_zone : Zone (C := sample_const) :=
  mkZone (C := sample_const) the_gateway "2" "Kitchen" 0
    (Some OPEN) (Some ALARM) (Some OK).

(** The loaded world, with the controller out of reach. *)
Definition offline_world : World (C := sample_const) :=
  with_controller silent loaded_world.

(** The loaded world, with a controller that answers a scoped zone fetch by
    an empty list. *)
Definition empty_reply_world : World (C := sample_const) :=
  with_controller (answering [hall; kitchen] [house] (ZoneList []) [house])
    loaded_world.

(** A controller that reports two zones under one identifier, and the world
    a load from it leaves. *)
Definition twice_reporting : Controller :=
  answering [hall; hall_again] [house] (ZoneSingle hall) [house].

Definition twice_loaded_world : World (C := sample_const) :=
  (async_load_parameters (fresh_world (Some 0) twice_reporting)).2.

(** A stand-in for [str()]. *)
Definition sample_str (value : json) : string :=
  match value with
  | JStr s => s
  | _ => ""
  end.

(** Two messages for an address that names nothing, and one for the kitchen. *)
Definition burglary_verified_nowhere : sia :=
  {| sia_address := "999"; sia_code := "BV" |}.

Definition zone_open_nowhere : sia :=
  {| sia_address := "999"; sia_code := "ZO" |}.

Definition zone_open_kitchen : sia :=
  {| sia_address := "2"; sia_code := "ZO" |}.
(** ** Further notions *)

Section FurtherNotions.
Context `{C : Const}.

(** The world after one more request. *)
Definition sent (w : World) (r : Request) : World :=
  mkWorld (gateway w) (area_objs w) (zone_objs w) (trace w ++ [Sent r]) (controller w).

(** The record that a scoped zone reply is read from, if it has one and the
    record is whole. *)
Definition first_record (reply : zone_reply) : option spc_zone :=
  match reply with
  | ZoneList l => head l
  | ZoneSingle record => Some record
  | ZonePartialList _ | ZonePartialSingle _ => None
  end.

(** What the registry knows of an entity: the attributes that only
    [__init__] and the load assign. *)
Definition Area_identity (o : Area) : gateway_ref * string * string * option (list loc) :=
  (Area__gateway o, Area__id o, Area__name o, Area_zones o).

Definition Zone_identity (o : Zone) : gateway_ref * string * string * loc :=
  (Zone__gateway o, Zone__id o, Zone__name o, Zone__area o).

(** Two worlds with one registry: the same gateway attributes, and entities
    that differ in their state at most. *)
Definition same_registry (w w' : World) : Prop :=
  gateway w' = gateway w /\
  Area_identity <$> area_objs w' = Area_identity <$> area_objs w /\
  Zone_identity <$> zone_objs w' = Zone_identity <$> zone_objs w.

(** The entity exists and the controller answers its scoped fetch, were it
    sent next, by a list with nothing in it. *)
Definition fetch_yields_empty_list (w : World) (e : Entity) : bool :=
  match e with
  | AreaEntity a =>
      match area_objs w !! a with
      | Some o =>
          match on_get (controller w) (length (trace w)) (OneArea (Area_id o)) with
          | Some [] => true
          | _ => false
          end
      | None => false
      end
  | ZoneEntity z =>
      match zone_objs w !! z with
      | Some o =>
          empty_list_reply (on_get (controller w) (length (trace w)) (OneZone (Zone_id o)))
      | None => false
      end
  end.

(** What reaches the gateway from outside: a websocket message, or a call
    of [change_mode]. *)
Inductive call : Type :=
  | Push (message : sia)
  | Command (area new_mode : py_value).

(** The world a call leaves, whether it returned or raised, and the world a
    run of calls leaves. *)
Definition after_call (w : World) (c : call) : World :=
  match c with
  | Push message => (_async_ws_handler message w).2
  | Command area new_mode => (change_mode area new_mode w).2
  end.

Definition after_calls (w : World) (calls : list call) : World :=
  foldl after_call w calls.

End FurtherNotions.

(** ** More of the sample installation *)

Definition hall_zone : Zone (C := sample_const) :=
  mkZone (C := sample_const) the_gateway "1" "Hall" 0
    (Some CLOSED) (Some ALARM) (Some OK).

(** The kitchen with its window shut, and with a status nobody knows. *)
Definition kitchen_closed : spc_zone :=
  {| zone_id := "2"; zone_zone_name := "Kitchen"; zone_area := "1";
     zone_input := "0"; zone_type := "0"; zone_status := "9" |}.

(** A zone of the garage. *)
Definition garage_door : spc_zone :=
  {| zone_id := "7"; zone_zone_name := "Door"; zone_area := "2";
     zone_input := "0"; zone_type := "1"; zone_status := "0" |}.

(** The loaded world, with a controller that answers every scoped fetch by
    an empty list. *)
Definition empty_lists_world : World (C := sample_const) :=
  with_controller (answering [hall; kitchen] [house] (ZoneList []) []) loaded_world.

(** A controller that changes its mind: the house for the first load and the
    garage afterwards; for a zone, a list first and a single record then. *)
Definition moving : Controller :=
  {| on_get n r :=
       match r as r return option (Payload r) with
       | PanelInfo => None
       | AllZones => Some [hall; kitchen; garage_door]
       | AllAreas => if n <? 3 then Some [house] else Some [garage]
       | OneZone _ =>
           if n <? 4 then Some (ZoneList [kitchen_closed; hall]) else Some (ZoneSingle kitchen)
       | OneArea _ => Some [garage; house]
       end;
     on_put _ _ := None |}.

Definition moved_world : World (C := sample_const) :=
  (async_load_parameters (fresh_world None moving)).2.

(** The loaded world, with a controller that answers a scoped zone fetch by
    a list that starts with the kitchen, shut. *)
Definition kitchen_closing_world : World (C := sample_const) :=
  with_controller (answering [hall; kitchen] [house] (ZoneList [kitchen_closed; hall]) [house])
    loaded_world.

(** The loaded world, with a controller that answers a scoped zone fetch by
    one record that has an input and a status, and no type. *)
Definition partial_reply_world : World (C := sample_const) :=
  with_controller
    (answering [hall; kitchen] [house]
       (ZonePartialSingle
          {| partial_input := Some "0"; partial_type := None; partial_status := Some "1" |})
       [house])
    loaded_world.

(** A message with a code of neither class, for the kitchen. *)
Definition trouble_kitchen : sia :=
  {| sia_address := "2"; sia_code := "ZZ" |}.

(** A zone restoral for the kitchen. *)
Definition restoral_kitchen : sia :=
  {| sia_address := "2"; sia_code := "BR" |}.

(** * Properties *)

(** Unfold one layer of the coroutine plumbing. *)
Ltac run :=
  unfold bind, ret, raise, lift, get_gateway, put_gateway, emit,
    read_area, write_area, new_area, read_zone, write_zone, new_zone,
    async_get_request, async_put_request; simpl.

(** ** area.py *)

Section AreaProperties.
Context `{C : Const}.

(** C8.  Reading [last_changed_by] gives the last-set user name when the
    mode is [UNSET], and the last-unset user name for each of the other three
    modes and for the [None] of an unrecognised mode. *)
Theorem last_changed_by_follows_mode (self : Area) :
  Area_last_changed_by self =
    match Area_mode self with
    | Some UNSET => Area__last_set_user_name self
    | Some PART_SET_A => Area__last_unset_user_name self
    | Some PART_SET_B => Area__last_unset_user_name self
    | Some FULL_SET => Area__last_unset_user_name self
    | None => Area__last_unset_user_name self
    end.
Proof.
  unfold Area_last_changed_by, Area_mode.
  destruct (Area__mode self) as [[]|]; reflexivity.
Qed.

(** A successful area refresh stores [_update(data)], whatever code it was
    called with. *)
Lemma Area_update_state_data (w : World) (a : loc) (o : Area)
    (code : option string) (data : spc_area) (rest : list spc_area) :
  area_objs w !! a = Some o ->
  on_get (controller w) (length (trace w)) (OneArea (Area_id o)) = Some (data :: rest) ->
  Area_update_state a code w =
    (Return tt,
     mkWorld (gateway w) (<[a := Area__update o data None]> (area_objs w))
       (zone_objs w) (trace w ++ [Sent (GET (path (OneArea (Area_id o))))])
       (controller w)).
Proof.
  intros Hobj Hget. unfold Area_update_state. run.
  rewrite Hobj. simpl. rewrite Hget. reflexivity.
Qed.

(** C1, as the code has it.  After a refresh whose scoped fetch succeeds the
    area's [verified_alarm] is false whatever the event code, ["BV"]
    included: [update_state] does not hand its [sia_code] to [_update]. *)
Theorem Area_update_state_never_verified (w : World) (a : loc) (o : Area)
    (code : option string) (data : spc_area) (rest : list spc_area) :
  area_objs w !! a = Some o ->
  on_get (controller w) (length (trace w)) (OneArea (Area_id o)) = Some (data :: rest) ->
  (Area_update_state a code w).1 = Return tt /\
  Area_verified_alarm <$> area_objs (Area_update_state a code w).2 !! a = Some false.
Proof.
  intros Hobj Hget.
  rewrite (Area_update_state_data w a o code data rest Hobj Hget). simpl.
  split; [reflexivity|].
  rewrite list_lookup_insert_eq by (eapply lookup_lt_Some; eassumption).
  reflexivity.
Qed.

End AreaProperties.

(** The sample area, refreshed on ["BV"] with the controller answering. *)
Lemma Area_update_state_never_verified_witness :
  (Area_update_state (C := sample_const) 0 (Some "BV") loaded_world).1 = Return tt /\
  Area_verified_alarm <$>
    area_objs (Area_update_state (C := sample_const) 0 (Some "BV") loaded_world).2 !! 0
  = Some false.
Proof.
  apply (Area_update_state_never_verified (C := sample_const) loaded_world 0
           house_area (Some "BV") house []).
  - vm_compute. reflexivity.
  - reflexivity.
Defined.

(** ** zone.py *)

Section ZoneProperties.
Context `{C : Const}.

(** C2, as the code has it.  Reading [unique_id] of a zone raises
    [AttributeError]: the property reads [self.gateway], and neither the
    class nor the instance has an attribute of that name (the instance has
    [_gateway]). *)
Theorem Zone_unique_id_raises (str : json -> string) (w : World) (z : loc) (o : Zone) :
  zone_objs w !! z = Some o ->
  Zone_unique_id str z w = (Raise AttributeError, w).
Proof.
  intros Hobj. unfold Zone_unique_id. run. rewrite Hobj. reflexivity.
Qed.

(** C7.  When the scoped fetch of a zone or of an area yields no data, the
    refresh returns without raising and changes nothing but the trace: every
    attribute of every entity, and the gateway, are as before; the one
    request sent is the scoped fetch. *)
Theorem update_state_without_data (w : World) (e : Entity) (code : option string) :
  fetch_yields_nothing w e = true ->
  (Entity_update_state e code w).1 = Return tt /\
  area_objs (Entity_update_state e code w).2 = area_objs w /\
  zone_objs (Entity_update_state e code w).2 = zone_objs w /\
  gateway (Entity_update_state e code w).2 = gateway w /\
  observer_calls (trace (Entity_update_state e code w).2) = observer_calls (trace w) /\
  length (requests (trace (Entity_update_state e code w).2)) =
    S (length (requests (trace w))).
Proof.
  unfold fetch_yields_nothing, observer_calls, requests.
  destruct e as [a|z]; simpl.
  - unfold Area_update_state. run.
    destruct (area_objs w !! a) as [o|]; [|discriminate]. simpl.
    destruct (on_get (controller w) (length (trace w)) (OneArea (Area_id o)));
      [discriminate|]. intros _. simpl.
    rewrite !omap_app, length_app. simpl. rewrite app_nil_r.
    repeat split; lia.
  - unfold Zone_update_state. run.
    destruct (zone_objs w !! z) as [o|]; [|discriminate]. simpl.
    destruct (on_get (controller w) (length (trace w)) (OneZone (Zone_id o)));
      [discriminate|]. intros _. simpl.
    rewrite !omap_app, length_app. simpl. rewrite app_nil_r.
    repeat split; lia.
Qed.

End ZoneProperties.

(** Past [self.gateway] the property would not go far either: [_info] holds
    the panel record, and [serial_number] looks for ["data"] in it. *)
Example serial_number_of_the_sample : serial_number (gateway loaded_world) = Raise KeyError.
Proof. vm_compute. reflexivity. Qed.

(** The kitchen zone of the sample installation. *)
Lemma Zone_unique_id_raises_witness :
  Zone_unique_id (C := sample_const) sample_str 1 loaded_world
  = (Raise AttributeError, loaded_world).
Proof.
  apply (Zone_unique_id_raises (C := sample_const) sample_str loaded_world 1
           kitchen_zone).
  vm_compute. reflexivity.
Defined.

(** The sample area and the kitchen zone, refreshed with the controller out
    of reach. *)
Lemma update_state_without_data_witness :
  area_objs
    (Entity_update_state (C := sample_const) (AreaEntity 0) (Some "BV") offline_world).2
  = [house_area] /\
  zone_objs
    (Entity_update_state (C := sample_const) (ZoneEntity 1) (Some "ZO") offline_world).2
  = zone_objs offline_world.
Proof.
  split.
  - apply (update_state_without_data (C := sample_const) offline_world
             (AreaEntity 0) (Some "BV")).
    vm_compute. reflexivity.
  - apply (update_state_without_data (C := sample_const) offline_world
             (ZoneEntity 1) (Some "ZO")).
    vm_compute. reflexivity.
Defined.

(** ** __init__.py: the websocket handler *)

(** The two code sets: seven area codes, ten zone codes, none in both. *)
Lemma Area_SUPPORTED_SIA_CODES_size : size Area_SUPPORTED_SIA_CODES = 7.
Proof. vm_compute. reflexivity. Qed.

Lemma Zone_SUPPORTED_SIA_CODES_size : size Zone_SUPPORTED_SIA_CODES = 10.
Proof. vm_compute. reflexivity. Qed.

Lemma SUPPORTED_SIA_CODES_disjoint :
  Area_SUPPORTED_SIA_CODES ∩ Zone_SUPPORTED_SIA_CODES = ∅.
Proof. vm_compute. reflexivity. Qed.

Section HandlerProperties.
Context `{C : Const}.

(** With [None] for a default the loader is the call of the enumeration. *)
Lemma _load_enum_None {E : Type} (enum : string -> option E) (value : string) :
  _load_enum enum value None = enum value.
Proof. unfold _load_enum. destruct (enum value); reflexivity. Qed.

Lemma not_area_code_ZO : "ZO" ∉ Area_SUPPORTED_SIA_CODES.
Proof. apply (bool_decide_eq_false_1 _). vm_compute. reflexivity. Qed.

Lemma zone_code_ZO : "ZO" ∈ Zone_SUPPORTED_SIA_CODES.
Proof. apply (bool_decide_eq_true_1 _). vm_compute. reflexivity. Qed.

Lemma area_code_BV : "BV" ∈ Area_SUPPORTED_SIA_CODES.
Proof. apply (bool_decide_eq_true_1 _). vm_compute. reflexivity. Qed.

(** C10.  For an area-class code the handler raises [RuntimeError], and does
    nothing else, whenever the number of loaded areas is not one (zero
    included); with one area loaded it goes on with that area: it refreshes
    it and notifies the observer.  In both cases the address of the message
    plays no part. *)
Theorem area_code_takes_the_sole_area (w : World) (message : sia) :
  sia_code message ∈ Area_SUPPORTED_SIA_CODES ->
  (size (_areas (gateway w)) ≠ 1 ->
     _async_ws_handler message w = (Raise RuntimeError, w)) /\
  (forall (k : string) (a : loc),
     _areas (gateway w) = {[ k := a ]} ->
     _async_ws_handler message w =
       dispatch (Some (AreaEntity a)) (sia_code message) w) /\
  (forall address : string,
     _async_ws_handler {| sia_address := address; sia_code := sia_code message |} w =
     _async_ws_handler message w).
Proof.
  intros Hcode. unfold _async_ws_handler. run.
  rewrite (bool_decide_eq_true_2 _ Hcode).
  split; [|split].
  - intros Hsize. rewrite (bool_decide_eq_false_2 _ Hsize). reflexivity.
  - intros k a Hareas. rewrite Hareas, map_size_singleton, map_to_list_singleton.
    reflexivity.
  - reflexivity.
Qed.

(** C3, as the code has it.  A message whose code is not an area code and
    whose address is not a key of [_zones] is discarded: the handler returns
    without raising, sends nothing and does not call the observer. *)
Theorem unmatched_zone_address_is_discarded (w : World) (message : sia) :
  sia_code message ∉ Area_SUPPORTED_SIA_CODES ->
  _zones (gateway w) !! sia_address message = None ->
  _async_ws_handler message w = (Return tt, w).
Proof.
  intros Hcode Hzone. unfold _async_ws_handler. run.
  rewrite (bool_decide_eq_false_2 _ Hcode), Hzone. simpl.
  destruct (bool_decide _); reflexivity.
Qed.

(** C4, as the code has it.  For a message with code ["ZO"] whose address is
    the key of a loaded zone, with an observer registered, and provided the
    scoped fetch yields no data or a record (the first of a list, or a
    single one) that has the keys [input], [type] and [status], the handler
    returns after exactly one request, the scoped fetch of that zone,
    followed by exactly one observer call, on that zone.  The refresh is
    done: the zone has the input, type and status of the record, or its old
    state when there was no data, and its identifier, name and area as
    before; no other zone, no area and nothing of the gateway has changed. *)
Theorem zone_open_refreshes_and_notifies_once (w : World) (message : sia)
    (z : loc) (o : Zone) (cb : Callback) :
  sia_code message = "ZO" ->
  _zones (gateway w) !! sia_address message = Some z ->
  zone_objs w !! z = Some o ->
  _async_callback (gateway w) = Some cb ->
  readable (on_get (controller w) (length (trace w)) (OneZone (Zone_id o))) = true ->
  (_async_ws_handler message w).1 = Return tt /\
  trace (_async_ws_handler message w).2 =
    trace w ++ [Sent (GET ("spc/zone/" +:+ Zone_id o)); Notified cb (ZoneEntity z)] /\
  zone_objs (_async_ws_handler message w).2 !! z =
    Some
      match
        on_get (controller w) (length (trace w)) (OneZone (Zone_id o))
          ≫= zone_reply_values
      with
      | Some (input, type, status) =>
          mkZone (Zone__gateway o) (Zone__id o) (Zone__name o) (Zone__area o)
            (ZoneInput_call input) (ZoneType_call type) (ZoneStatus_call status)
      | None => o
      end /\
  (forall z' : loc, z' ≠ z ->
     zone_objs (_async_ws_handler message w).2 !! z' = zone_objs w !! z') /\
  area_objs (_async_ws_handler message w).2 = area_objs w /\
  gateway (_async_ws_handler message w).2 = gateway w.
Proof.
  intros Hcode Hzone Hobj Hcb Hreadable. unfold _async_ws_handler. run.
  rewrite Hcode, (bool_decide_eq_false_2 _ not_area_code_ZO),
    (bool_decide_eq_true_2 _ zone_code_ZO), Hzone. simpl.
  unfold Zone_update_state. run. rewrite Hobj. simpl.
  pose proof (lookup_lt_Some _ _ _ Hobj) as Hlt.
  destruct (on_get (controller w) (length (trace w)) (OneZone (Zone_id o)))
    as [[[|first rest]|record|[[i|] [t|] [s|]]|[[i|] [t|] [s|]]]|];
    try discriminate Hreadable; simpl; rewrite Hcb; simpl; rewrite <- app_assoc; simpl;
    (split; [reflexivity|]); (split; [reflexivity|]);
    (split; [|split; [|split; reflexivity]]);
    try (rewrite list_lookup_insert_eq by exact Hlt; unfold Zone__update;
         rewrite !_load_enum_None; reflexivity);
    try (intros z' Hne; apply list_lookup_insert_ne; congruence);
    try exact Hobj; try (intros z' Hne; reflexivity).
Qed.

End HandlerProperties.

(** ["BV"] for an address that names nothing: with the sample area loaded the
    handler goes on with it; with nothing loaded it raises. *)
Lemma area_code_takes_the_sole_area_witness :
  _async_ws_handler (C := sample_const) burglary_verified_nowhere loaded_world
  = dispatch (Some (AreaEntity 0)) "BV" loaded_world /\
  _async_ws_handler (C := sample_const) burglary_verified_nowhere
    (fresh_world (Some 0) sample_controller)
  = (Raise RuntimeError, fresh_world (Some 0) sample_controller).
Proof.
  split.
  - apply (proj1 (proj2 (area_code_takes_the_sole_area (C := sample_const)
                           loaded_world burglary_verified_nowhere area_code_BV))
             "1" 0).
    vm_compute. reflexivity.
  - apply (proj1 (area_code_takes_the_sole_area (C := sample_const)
                    (fresh_world (Some 0) sample_controller)
                    burglary_verified_nowhere area_code_BV)).
    vm_compute. discriminate.
Defined.

(** ["ZO"] for an address that names nothing. *)
Lemma unmatched_zone_address_is_discarded_witness :
  _async_ws_handler (C := sample_const) zone_open_nowhere loaded_world
  = (Return tt, loaded_world).
Proof.
  apply (unmatched_zone_address_is_discarded (C := sample_const) loaded_world
           zone_open_nowhere not_area_code_ZO).
  vm_compute. reflexivity.
Defined.

(** C3 as stated fails: ["999"] names neither a zone nor an area of the
    sample installation, and yet a ["BV"] message for it is not discarded:
    the observer is called once, on the sole area. *)
Lemma unmatched_address_area_code_counterexample :
  matches_no_entity loaded_world "999" = true /\
  observer_calls
    (trace (_async_ws_handler (C := sample_const) burglary_verified_nowhere loaded_world).2)
  = [(0, AreaEntity 0)] /\
  ~ discarded loaded_world burglary_verified_nowhere.
Proof.
  split; [vm_compute; reflexivity|].
  split; [vm_compute; reflexivity|].
  intros [_ Hcalls]. vm_compute in Hcalls. discriminate Hcalls.
Qed.

(** ["ZO"] for the kitchen zone, answered by a list: the zone takes the
    state of the first record, whose status the enumeration does not know. *)
Lemma zone_open_refreshes_and_notifies_once_witness :
  (_async_ws_handler (C := sample_const) zone_open_kitchen kitchen_closing_world).1
  = Return tt /\
  trace (_async_ws_handler (C := sample_const) zone_open_kitchen kitchen_closing_world).2
  = trace kitchen_closing_world ++ [Sent (GET "spc/zone/2"); Notified 0 (ZoneEntity 1)] /\
  zone_objs (_async_ws_handler (C := sample_const) zone_open_kitchen kitchen_closing_world).2
    !! 1
  = Some (mkZone (C := sample_const) the_gateway "2" "Kitchen" 0
            (Some CLOSED) (Some ALARM) None).
Proof.
  destruct (zone_open_refreshes_and_notifies_once (C := sample_const)
              kitchen_closing_world zone_open_kitchen 1 kitchen_zone 0)
    as (Houtcome & Htrace & Hstate & _).
  - reflexivity.
  - vm_compute. reflexivity.
  - reflexivity.
  - reflexivity.
  - reflexivity.
  - split; [exact Houtcome|]. split; [exact Htrace|exact Hstate].
Defined.

(** C4 as stated fails: the kitchen zone is loaded and an observer is
    registered, but when the scoped fetch is answered by an empty list the
    handler raises [IndexError] after the request and never calls the
    observer; and when it is answered by a record without the key [type]
    the handler raises [KeyError], having stored the input of the record,
    and never calls the observer either. *)
Lemma zone_open_unreadable_reply_counterexample :
  (_zones (gateway empty_reply_world) !! sia_address zone_open_kitchen = Some 1 /\
   zone_objs empty_reply_world !! 1 = Some kitchen_zone /\
   _async_callback (gateway empty_reply_world) = Some 0 /\
   (_async_ws_handler (C := sample_const) zone_open_kitchen empty_reply_world).1
   = Raise IndexError /\
   requests
     (trace (_async_ws_handler (C := sample_const) zone_open_kitchen empty_reply_world).2)
   = requests (trace empty_reply_world) ++ [GET "spc/zone/2"] /\
   observer_calls
     (trace (_async_ws_handler (C := sample_const) zone_open_kitchen empty_reply_world).2)
   = []) /\
  (_zones (gateway partial_reply_world) !! sia_address zone_open_kitchen = Some 1 /\
   zone_objs partial_reply_world !! 1 = Some kitchen_zone /\
   _async_callback (gateway partial_reply_world) = Some 0 /\
   (_async_ws_handler (C := sample_const) zone_open_kitchen partial_reply_world).1
   = Raise KeyError /\
   requests
     (trace (_async_ws_handler (C := sample_const) zone_open_kitchen partial_reply_world).2)
   = requests (trace partial_reply_world) ++ [GET "spc/zone/2"] /\
   observer_calls
     (trace (_async_ws_handler (C := sample_const) zone_open_kitchen partial_reply_world).2)
   = [] /\
   zone_objs (_async_ws_handler (C := sample_const) zone_open_kitchen partial_reply_world).2
     !! 1
   = Some (mkZone (C := sample_const) the_gateway "2" "Kitchen" 0
             (Some CLOSED) (Some ALARM) (Some OK))).
Proof.
  repeat split; vm_compute; reflexivity.
Qed.

(** ** __init__.py: commands *)

Section CommandProperties.
Context `{C : Const}.

(** C6.  Called with a value that is not one of the four modes,
    [change_mode] raises [TypeError] and does nothing else.  Called with a
    mode and an area it can resolve, it sends exactly two requests: the
    command, a [PUT] on the area's path followed by ["unset"], ["set_a"],
    ["set_b"] or ["set"] for [UNSET], [PART_SET_A], [PART_SET_B] and
    [FULL_SET], and then the refresh of that area. *)
Theorem change_mode_wire_command (w : World) (area : py_value) :
  (forall new_mode : py_value,
     (forall mode, new_mode ≠ PyAreaMode mode) ->
     change_mode area new_mode w = (Raise TypeError, w)) /\
  (forall (mode : AreaMode) (a : loc) (o : Area),
     area = PyArea a \/ (exists k, area = PyStr k /\ _areas (gateway w) !! k = Some a) ->
     area_objs w !! a = Some o ->
     trace (change_mode area (PyAreaMode mode) w).2 =
       trace w ++
       [ Sent (PUT ("spc/area/" +:+ Area_id o +:+ "/" +:+
                    match mode with
                    | UNSET => "unset"
                    | PART_SET_A => "set_a"
                    | PART_SET_B => "set_b"
                    | FULL_SET => "set"
                    end));
         Sent (GET ("spc/area/" +:+ Area_id o)) ]).
Proof.
  split.
  - intros new_mode Hnot.
    destruct new_mode as [| | |mode|]; try reflexivity.
    destruct (Hnot mode eq_refl).
  - intros mode a o Harea Hobj.
    assert (match area with PyArea a' => Some a' | _ => areas_get (gateway w) area end
            = Some a) as Hres.
    { destruct Harea as [->|(k & -> & Hk)]; [reflexivity|exact Hk]. }
    unfold change_mode. run. rewrite Hres. simpl. rewrite Hobj. simpl.
    unfold Area_update_state. run. rewrite Hobj. simpl.
    rewrite <- app_assoc. simpl.
    destruct (on_get _ _ _) as [[|data rest]|]; simpl; destruct mode; reflexivity.
Qed.

End CommandProperties.

(** The sample area, named by its identifier: a string for a mode is
    refused, [FULL_SET] is sent as ["set"]. *)
Lemma change_mode_wire_command_witness :
  change_mode (C := sample_const) (PyStr "1") (PyStr "set") loaded_world
  = (Raise TypeError, loaded_world) /\
  trace (change_mode (C := sample_const) (PyStr "1") (PyAreaMode FULL_SET) loaded_world).2
  = trace loaded_world ++ [Sent (PUT "spc/area/1/set"); Sent (GET "spc/area/1")].
Proof.
  split.
  - apply (proj1 (change_mode_wire_command (C := sample_const) loaded_world (PyStr "1"))).
    intros mode. discriminate.
  - apply (proj2 (change_mode_wire_command (C := sample_const) loaded_world (PyStr "1"))
             FULL_SET 0 house_area).
    + right. exists "1". split; [reflexivity|]. vm_compute. reflexivity.
    + vm_compute. reflexivity.
Defined.

(** ** __init__.py: loading *)

Section LoadProperties.
Context `{C : Const}.

(** The list comprehension makes one zone for each record of the area, at
    the next free positions of the store. *)
Lemma area_zones_of_run (area : loc) (spc_area : spc_area) (zones : list spc_zone)
    (w : World) :
  area_zones_of area spc_area zones w =
    (Return (seq (length (zone_objs w)) (length (zones_in spc_area zones))),
     mkWorld (gateway w) (area_objs w)
       (zone_objs w ++ (Zone__init__ the_gateway area <$> zones_in spc_area zones))
       (trace w) (controller w)).
Proof.
  revert w. induction zones as [|zone rest IH]; intros w.
  - simpl. unfold ret. destruct w. simpl. rewrite app_nil_r. reflexivity.
  - simpl. unfold zones_in. rewrite filter_cons.
    destruct (decide (zone_area zone = area_id spc_area)) as [Heq|Hne].
    + rewrite (bool_decide_eq_true_2 _ Heq). run. rewrite IH. simpl.
      rewrite length_app. simpl. rewrite Nat.add_1_r, <- app_assoc. reflexivity.
    + rewrite (bool_decide_eq_false_2 _ Hne). apply IH.
Qed.

(** The dict comprehension, read off a store that holds the zones. *)
Lemma zones_by_id_run (w : World) (area_zones : list loc) (objs : list Zone) :
  Forall2 (fun z o => zone_objs w !! z = Some o) area_zones objs ->
  forall acc : gmap string loc,
    zones_by_id area_zones acc w =
      (Return (list_to_map (reverse (zip (Zone_id <$> objs) area_zones)) ∪ acc), w).
Proof.
  induction 1 as [|z o zs os Hz _ IH]; intros acc.
  - simpl. unfold ret. rewrite (left_id_L ∅ (∪)). reflexivity.
  - simpl. run. rewrite Hz. rewrite IH. simpl.
    rewrite reverse_cons, list_to_map_app. simpl.
    rewrite <- (assoc_L (∪)), <- insert_union_l, (left_id_L ∅ (∪)).
    reflexivity.
Qed.

(** Objects appended to a store sit at the positions past its end. *)
Lemma fresh_positions {A : Type} (old new : list A) :
  Forall2 (fun z o => (old ++ new) !! z = Some o) (seq (length old) (length new)) new.
Proof.
  apply Forall2_same_length_lookup_2.
  - apply length_seq.
  - intros i z o Hz Ho. apply lookup_seq in Hz as [-> Hi].
    rewrite lookup_app_r by lia.
    replace (length old + i - length old) with i by lia. exact Ho.
Qed.

(** One turn of the loop. *)
Lemma load_area_run (zones : list spc_zone) (spc_area : spc_area) (w : World) :
  load_area zones spc_area w = (Return tt, with_area w zones spc_area).
Proof.
  unfold load_area.
  unfold bind at 1. unfold new_area at 1. cbv beta iota.
  unfold bind at 1. rewrite area_zones_of_run. cbv beta iota.
  run. rewrite list_lookup_middle by reflexivity. simpl.
  rewrite list_lookup_insert_eq by (rewrite length_app; simpl; lia). simpl.
  rewrite (zones_by_id_run _ _ (Zone__init__ the_gateway (length (area_objs w))
                                  <$> zones_in spc_area zones)).
  2:{ simpl. rewrite <- (length_fmap (Zone__init__ the_gateway (length (area_objs w)))).
      apply fresh_positions. }
  simpl. unfold with_area.
  rewrite (right_id_L ∅ (∪)), <- list_fmap_compose.
  rewrite insert_app_r_alt, Nat.sub_diag by lia. reflexivity.
Qed.

Lemma length_snoc {A : Type} (l : list A) (x : A) : length (l ++ [x]) = S (length l).
Proof. rewrite length_app. simpl. lia. Qed.

(** The whole load, in closed form. *)
Lemma async_load_parameters_run (w : World) :
  async_load_parameters w =
    match reported_zones w, reported_areas w with
    | Some (zone :: zones), Some [spc_area] =>
        (Return true, with_area (fetched w) (zone :: zones) spc_area)
    | _, _ => (Return false, fetched w)
    end.
Proof.
  unfold async_load_parameters, _async_get_panel_info, _async_get_zones,
    _async_get_areas, reported_zones, reported_areas, fetched.
  run.
  destruct (on_get (controller w) (length (trace w)) PanelInfo) as [info|]; simpl.
  all: rewrite !length_snoc.
  all: destruct (on_get (controller w) (S (length (trace w))) AllZones)
         as [[|zone zones]|]; simpl.
  all: rewrite !length_snoc, <- !app_assoc; simpl.
  all: destruct (on_get (controller w) (S (S (length (trace w)))) AllAreas)
         as [[|spc_area [|other areas]]|]; simpl; try reflexivity.
  all: unfold bind; rewrite load_area_run; reflexivity.
Qed.

(** Lookups in the dict of the zones made for one area. *)
Lemma by_id_lookup_inv (ids : list string) (first : nat) (k : string) (z : loc) :
  (list_to_map (reverse (zip ids (seq first (length ids)))) : gmap string loc) !! k = Some z ->
  exists i, z = first + i /\ ids !! i = Some k.
Proof.
  intros Hk. apply elem_of_list_to_map_2 in Hk. rewrite elem_of_reverse in Hk.
  apply list_elem_of_lookup in Hk as [i Hi]. apply lookup_zip_with_Some in Hi.
  destruct Hi as (k' & z' & [= <- <-] & Hk & Hz).
  apply lookup_seq in Hz as [-> _]. eauto.
Qed.

Lemma by_id_lookup (ids : list string) (first i : nat) (k : string) :
  NoDup ids ->
  ids !! i = Some k ->
  (list_to_map (reverse (zip ids (seq first (length ids)))) : gmap string loc) !! k
  = Some (first + i).
Proof.
  intros Hnodup Hk. apply elem_of_list_to_map_1.
  - rewrite fmap_reverse, fst_zip by (rewrite length_seq; lia).
    rewrite reverse_Permutation. exact Hnodup.
  - rewrite elem_of_reverse. apply list_elem_of_lookup. exists i.
    apply lookup_zip_with_Some. exists k, (first + i). repeat split; [exact Hk|].
    apply lookup_seq. split; [reflexivity|]. eapply lookup_lt_Some, Hk.
Qed.

(** C5.  A load reports failure exactly when the zone list fetch or the
    area list fetch yields nothing ([None] or an empty list) or two or more
    areas are reported, and success otherwise.  On failure no entity is
    made and both dicts are as they were: empty, on a gateway that had
    loaded nothing. *)
Theorem load_reports_failure_or_success (w : World) :
  let failed :=
    not_ (reported_zones w) || not_ (reported_areas w) ||
    bool_decide (2 <= length (default [] (reported_areas w))) in
  (async_load_parameters w).1 = Return (negb failed) /\
  (failed = true ->
   area_objs (async_load_parameters w).2 = area_objs w /\
   zone_objs (async_load_parameters w).2 = zone_objs w /\
   _areas (gateway (async_load_parameters w).2) = _areas (gateway w) /\
   _zones (gateway (async_load_parameters w).2) = _zones (gateway w)).
Proof.
  rewrite async_load_parameters_run.
  destruct (reported_zones w) as [[|zone zones]|]; simpl.
  2: destruct (reported_areas w) as [[|spc_area [|other areas]]|]; simpl.
  all: split; [reflexivity|]; try discriminate; intros _; repeat split.
Qed.

(** C9, as the code has it.  After a successful load on a gateway that had
    loaded nothing before, and provided no two of the zones made carry the
    same identifier, the area of every zone is a value of [_areas], the zones
    held by the areas are exactly the entries of [_zones], each under its
    identifier, and no [zones] list holds a zone twice. *)
Theorem load_builds_the_registry (w w' : World) :
  nothing_loaded w ->
  async_load_parameters w = (Return true, w') ->
  NoDup (Zone_id <$> zone_objs w') ->
  registry_consistent w'.
Proof.
  intros (Hareas & Hzones & Harea_dict & Hzone_dict).
  rewrite async_load_parameters_run.
  destruct (reported_zones _) as [[|zone zones]|]; try discriminate.
  destruct (reported_areas _) as [[|spc_area [|other areas]]|]; try discriminate.
  intros [= <-]. unfold with_area, held_by_an_area. simpl.
  rewrite Hareas, Hzones, Harea_dict, Hzone_dict. simpl.
  rewrite <- list_fmap_compose.
  change (Zone_id ∘ Zone__init__ the_gateway 0) with zone_id.
  set (records := zones_in spc_area (zone :: zones)). intros Hnodup.
  assert (forall (k : string) (a : loc),
            (<[area_id spc_area := 0]> ∅ : gmap string loc) !! k = Some a -> a = 0)
    as Hsole.
  { intros k a Hk. apply lookup_insert_Some in Hk as [[_ <-]|[_ Hk]];
      [reflexivity|]. rewrite lookup_empty in Hk. discriminate. }
  set (w' := mkWorld _ _ _ _ _).
  assert (forall z : loc, held_by_an_area w' z <-> z < length records) as Hheld.
  { intros z. unfold held_by_an_area. simpl. split.
    - intros (k & a & o & zs & Hk & Ho & Hzs & Hz).
      apply Hsole in Hk as ->. simpl in Ho. injection Ho as <-. simpl in Hzs.
      injection Hzs as <-. apply elem_of_seq in Hz. lia.
    - intros Hz. eexists (area_id spc_area), 0, _, _.
      split; [apply lookup_insert_eq|]. split; [reflexivity|].
      split; [reflexivity|]. apply elem_of_seq. lia. }
  split; simpl.
  - intros z o Ho. apply list_lookup_fmap_Some in Ho as (record & -> & _).
    exists (area_id spc_area). apply lookup_insert_eq.
  - intros z Hz. apply Hheld in Hz.
    destruct (lookup_lt_is_Some_2 records z Hz) as [record Hrecord].
    exists (Zone__init__ the_gateway 0 record). rewrite list_lookup_fmap, Hrecord.
    split; [reflexivity|]. rewrite (right_id_L ∅ (∪)).
    rewrite <- (length_fmap zone_id records).
    apply (by_id_lookup _ 0 z); [exact Hnodup|].
    rewrite list_lookup_fmap, Hrecord. reflexivity.
  - intros k z Hk. rewrite (right_id_L ∅ (∪)) in Hk.
    rewrite <- (length_fmap zone_id records) in Hk.
    apply by_id_lookup_inv in Hk as (i & -> & Hi). simpl.
    apply list_lookup_fmap_Some in Hi as (record & -> & Hrecord).
    split.
    + apply Hheld. eapply lookup_lt_Some, Hrecord.
    + rewrite list_lookup_fmap, Hrecord. reflexivity.
  - intros k a o zs Hk Ho Hzs. apply Hsole in Hk as ->. simpl in Ho.
    injection Ho as <-. simpl in Hzs. injection Hzs as <-. apply NoDup_seq.
Qed.

End LoadProperties.

(** With the controller out of reach the load fails and both dicts stay
    empty; from the sample controller it succeeds. *)
Lemma load_reports_failure_or_success_witness :
  (async_load_parameters (C := sample_const) (fresh_world None silent)).1 = Return false /\
  _areas (gateway (async_load_parameters (C := sample_const) (fresh_world None silent)).2)
  = ∅ /\
  _zones (gateway (async_load_parameters (C := sample_const) (fresh_world None silent)).2)
  = ∅ /\
  (async_load_parameters (C := sample_const) (fresh_world (Some 0) sample_controller)).1
  = Return true.
Proof.
  destruct (load_reports_failure_or_success (C := sample_const) (fresh_world None silent))
    as [Hreport Hnothing].
  split; [exact Hreport|].
  destruct (Hnothing eq_refl) as (_ & _ & Hareas & Hzones).
  split; [exact Hareas|]. split; [exact Hzones|].
  exact (proj1 (load_reports_failure_or_success (C := sample_const)
                  (fresh_world (Some 0) sample_controller))).
Defined.

(** The sample installation. *)
Lemma load_builds_the_registry_witness : registry_consistent loaded_world.
Proof.
  apply (load_builds_the_registry (C := sample_const)
           (fresh_world (Some 0) sample_controller) loaded_world).
  - repeat split; reflexivity.
  - vm_compute. reflexivity.
  - apply (bool_decide_unpack _). vm_compute. exact I.
Defined.

(** C9 as stated fails: when the controller reports two zones under one
    identifier the load succeeds, the area holds both, and [_zones] has room
    for the second only. *)
Lemma duplicate_identifiers_counterexample :
  (async_load_parameters (C := sample_const) (fresh_world (Some 0) twice_reporting)).1
  = Return true /\
  ~ registry_consistent twice_loaded_world.
Proof.
  split; [vm_compute; reflexivity|].
  intros [_ Hheld _ _].
  destruct (Hheld 0) as (o & Ho & Hentry).
  - exists "1", 0, (mkArea the_gateway "1" "House" false (Some [0; 1]) (Some UNSET)
                      "Ann" "Bob"), [0; 1].
    split; [vm_compute; reflexivity|]. split; [vm_compute; reflexivity|].
    split; [reflexivity|]. apply list_elem_of_here.
  - vm_compute in Ho. injection Ho as <-.
    vm_compute in Hentry. discriminate Hentry.
Qed.

(** * Further properties *)

(** ** Refreshes *)

Section RefreshRuns.
Context `{C : Const}.

Lemma Area_update_state_run (w : World) (a : loc) (code : option string) :
  Area_update_state a code w =
    match area_objs w !! a with
    | Some o =>
        match on_get (controller w) (length (trace w)) (OneArea (Area_id o)) with
        | Some (data :: _) =>
            (Return tt,
             mkWorld (gateway w) (<[a := Area__update o data None]> (area_objs w))
               (zone_objs w) (trace w ++ [Sent (GET ("spc/area/" +:+ Area_id o))])
               (controller w))
        | Some [] => (Raise IndexError, sent w (GET ("spc/area/" +:+ Area_id o)))
        | None => (Return tt, sent w (GET ("spc/area/" +:+ Area_id o)))
        end
    | None => (Raise InvalidReference, w)
    end.
Proof.
  unfold Area_update_state, sent. run.
  destruct (area_objs w !! a) as [o|]; [|reflexivity]. simpl.
  destruct (on_get _ _ _) as [[|data rest]|]; reflexivity.
Qed.

Lemma Zone_update_state_run (w : World) (z : loc) (code : option string) :
  Zone_update_state z code w =
    match zone_objs w !! z with
    | Some o =>
        match on_get (controller w) (length (trace w)) (OneZone (Zone_id o)) with
        | Some reply =>
            match first_record reply with
            | Some data =>
                (Return tt,
                 mkWorld (gateway w) (area_objs w)
                   (<[z := Zone__update o data code]> (zone_objs w))
                   (trace w ++ [Sent (GET ("spc/zone/" +:+ Zone_id o))])
                   (controller w))
            | None =>
                match reply with
                | ZonePartialList record | ZonePartialSingle record =>
                    ((Zone__update_partial o record code).1,
                     mkWorld (gateway w) (area_objs w)
                       (<[z := (Zone__update_partial o record code).2]> (zone_objs w))
                       (trace w ++ [Sent (GET ("spc/zone/" +:+ Zone_id o))])
                       (controller w))
                | _ => (Raise IndexError, sent w (GET ("spc/zone/" +:+ Zone_id o)))
                end
            end
        | None => (Return tt, sent w (GET ("spc/zone/" +:+ Zone_id o)))
        end
    | None => (Raise InvalidReference, w)
    end.
Proof.
  unfold Zone_update_state, sent. run.
  destruct (zone_objs w !! z) as [o|]; [|reflexivity]. simpl.
  destruct (on_get _ _ _) as [[[|data rest]|data|record|record]|]; try reflexivity;
    simpl; destruct (Zone__update_partial o record code) as [[[]|x] o']; reflexivity.
Qed.

(** A record that lacks a key leaves the zone what it is for the registry,
    and raises nothing but [KeyError]. *)
Lemma Zone__update_partial_identity (o : Zone) (record : partial_zone)
    (code : option string) :
  Zone_identity (Zone__update_partial o record code).2 = Zone_identity o.
Proof.
  unfold Zone__update_partial.
  destruct (partial_input record), (partial_type record), (partial_status record);
    reflexivity.
Qed.

Lemma Zone__update_partial_outcome (o : Zone) (record : partial_zone)
    (code : option string) :
  (Zone__update_partial o record code).1 = Return tt \/
  (Zone__update_partial o record code).1 = Raise KeyError.
Proof.
  unfold Zone__update_partial.
  destruct (partial_input record), (partial_type record), (partial_status record);
    auto.
Qed.

End RefreshRuns.

Section RefreshExtras.
Context `{C : Const}.

(** X1.  A successful area refresh replaces the mode and the two user names
    by what the first record of the reply gives (an unrecognised mode and a
    previous one alike are overwritten; an absent name is ["N/A"]), keeps
    the identifier, the name and the zones of the area, and touches neither
    another area, nor a zone, nor the gateway. *)
Theorem Area_update_state_replaces_state (w : World) (a : loc) (o : Area)
    (code : option string) (data : spc_area) (rest : list spc_area) :
  area_objs w !! a = Some o ->
  on_get (controller w) (length (trace w)) (OneArea (Area_id o)) = Some (data :: rest) ->
  area_objs (Area_update_state a code w).2 !! a =
    Some (mkArea (Area__gateway o) (Area__id o) (Area__name o) false (Area_zones o)
            (AreaMode_call (area_mode data))
            (default "N/A" (area_last_set_user_name data))
            (default "N/A" (area_last_unset_user_name data))) /\
  (forall a' : loc, a' ≠ a ->
     area_objs (Area_update_state a code w).2 !! a' = area_objs w !! a') /\
  zone_objs (Area_update_state a code w).2 = zone_objs w /\
  gateway (Area_update_state a code w).2 = gateway w.
Proof.
  intros Hobj Hget. rewrite Area_update_state_run, Hobj, Hget. simpl.
  split; [|split; [|split; reflexivity]].
  - rewrite list_lookup_insert_eq by (eapply lookup_lt_Some, Hobj).
    unfold Area__update, _load_enum. simpl.
    destruct (AreaMode_call (area_mode data)); reflexivity.
  - intros a' Hne. apply list_lookup_insert_ne. congruence.
Qed.

(** X2.  A successful zone refresh reads the first record of a list reply
    and the record itself of a single reply alike; it replaces input, type
    and status by what that record gives, each on its own ([None] for a
    value the enumeration does not have), keeps the identifier, the name and
    the area of the zone, and touches neither another zone, nor an area, nor
    the gateway. *)
Theorem Zone_update_state_replaces_state (w : World) (z : loc) (o : Zone)
    (code : option string) (reply : zone_reply) (data : spc_zone) :
  zone_objs w !! z = Some o ->
  on_get (controller w) (length (trace w)) (OneZone (Zone_id o)) = Some reply ->
  first_record reply = Some data ->
  (Zone_update_state z code w).1 = Return tt /\
  zone_objs (Zone_update_state z code w).2 !! z =
    Some (mkZone (Zone__gateway o) (Zone__id o) (Zone__name o) (Zone__area o)
            (ZoneInput_call (zone_input data))
            (ZoneType_call (zone_type data))
            (ZoneStatus_call (zone_status data))) /\
  (forall z' : loc, z' ≠ z ->
     zone_objs (Zone_update_state z code w).2 !! z' = zone_objs w !! z') /\
  area_objs (Zone_update_state z code w).2 = area_objs w /\
  gateway (Zone_update_state z code w).2 = gateway w.
Proof.
  intros Hobj Hget Hfirst. rewrite Zone_update_state_run, Hobj, Hget, Hfirst. simpl.
  split; [reflexivity|]. split; [|split; [|split; reflexivity]].
  - rewrite list_lookup_insert_eq by (eapply lookup_lt_Some, Hobj).
    unfold Zone__update, _load_enum. simpl.
    destruct (ZoneInput_call _), (ZoneType_call _), (ZoneStatus_call _); reflexivity.
  - intros z' Hne. apply list_lookup_insert_ne. congruence.
Qed.

(** X3.  Of two zone refreshes in a row, both answered, only the second
    shows: the zone ends as one refresh from the second reply alone would
    leave it, and the other zones as they were. *)
Theorem Zone_update_state_twice (w : World) (z : loc) (o : Zone)
    (code1 code2 : option string) (reply1 reply2 : zone_reply) (data1 data2 : spc_zone) :
  zone_objs w !! z = Some o ->
  on_get (controller w) (length (trace w)) (OneZone (Zone_id o)) = Some reply1 ->
  first_record reply1 = Some data1 ->
  on_get (controller w) (S (length (trace w))) (OneZone (Zone_id o)) = Some reply2 ->
  first_record reply2 = Some data2 ->
  zone_objs ((Zone_update_state z code1 ;;; Zone_update_state z code2) w).2 =
    <[z := Zone__update o data2 code2]> (zone_objs w).
Proof.
  intros Hobj Hget1 Hfirst1 Hget2 Hfirst2. unfold bind.
  rewrite Zone_update_state_run, Hobj, Hget1, Hfirst1.
  rewrite Zone_update_state_run. simpl.
  rewrite list_lookup_insert_eq by (eapply lookup_lt_Some, Hobj). simpl.
  unfold Zone_id in *. simpl.
  rewrite length_app. simpl. rewrite Nat.add_1_r, Hget2, Hfirst2. simpl.
  apply list_insert_insert_eq.
Qed.

(** X4.  When the scoped fetch of an area or of a zone is answered by an
    empty list the refresh raises [IndexError]: the request was sent, and
    no entity and nothing of the gateway has changed. *)
Theorem update_state_on_empty_list (w : World) (e : Entity) (code : option string) :
  fetch_yields_empty_list w e = true ->
  (Entity_update_state e code w).1 = Raise IndexError /\
  area_objs (Entity_update_state e code w).2 = area_objs w /\
  zone_objs (Entity_update_state e code w).2 = zone_objs w /\
  gateway (Entity_update_state e code w).2 = gateway w /\
  exists url : string,
    trace (Entity_update_state e code w).2 = trace w ++ [Sent (GET url)].
Proof.
  destruct e as [a|z]; simpl.
  - rewrite Area_update_state_run.
    destruct (area_objs w !! a) as [o|]; [|discriminate].
    destruct (on_get _ _ _) as [[|data rest]|]; try discriminate.
    intros _. simpl. eauto 10.
  - rewrite Zone_update_state_run.
    destruct (zone_objs w !! z) as [o|]; [|discriminate].
    destruct (on_get _ _ _) as [[[|data rest]|data|record|record]|]; try discriminate.
    intros _. simpl. eauto 10.
Qed.

(** A refresh changes the state of one entity at most. *)
Lemma Entity_update_state_same_registry (w : World) (e : Entity) (code : option string) :
  same_registry w (Entity_update_state e code w).2.
Proof.
  unfold same_registry. destruct e as [a|z]; unfold Entity_update_state.
  - rewrite Area_update_state_run.
    destruct (_ !! a) as [o|] eqn:Hobj; [|done].
    destruct (on_get _ _ _) as [[|data rest]|]; simpl; try done.
    split; [reflexivity|]. split; [|reflexivity].
    rewrite list_fmap_insert. apply list_insert_id.
    rewrite list_lookup_fmap. exact (f_equal (fmap Area_identity) Hobj).
  - rewrite Zone_update_state_run.
    destruct (_ !! z) as [o|] eqn:Hobj; [|done].
    destruct (on_get _ _ _) as [[[|data rest]|data|record|record]|]; simpl; try done.
    all: split; [reflexivity|]; split; [reflexivity|].
    all: rewrite list_fmap_insert; apply list_insert_id.
    all: rewrite list_lookup_fmap, ?Zone__update_partial_identity.
    all: exact (f_equal (fmap Zone_identity) Hobj).
Qed.

(** A refresh sends its scoped fetch, unless the entity is not in the store. *)
Lemma Entity_update_state_trace (w : World) (e : Entity) (code : option string) :
  Entity_update_state e code w = (Raise InvalidReference, w) \/
  exists url : string,
    trace (Entity_update_state e code w).2 = trace w ++ [Sent (GET url)].
Proof.
  destruct e as [a|z]; unfold Entity_update_state.
  - rewrite Area_update_state_run.
    destruct (area_objs w !! a) as [o|]; [|by left].
    destruct (on_get _ _ _) as [[|data rest]|]; simpl; eauto.
  - rewrite Zone_update_state_run.
    destruct (zone_objs w !! z) as [o|]; [|by left].
    destruct (on_get _ _ _) as [[[|data rest]|data|record|record]|]; simpl; eauto.
Qed.

End RefreshExtras.

Section HandlerExtras.
Context `{C : Const}.

Lemma zone_code_not_area_code (code : string) :
  code ∈ Zone_SUPPORTED_SIA_CODES -> code ∉ Area_SUPPORTED_SIA_CODES.
Proof.
  intros Hzone Harea.
  assert (code ∈ Area_SUPPORTED_SIA_CODES ∩ Zone_SUPPORTED_SIA_CODES) as Hboth
    by (apply elem_of_intersection; split; assumption).
  rewrite SUPPORTED_SIA_CODES_disjoint in Hboth.
  apply not_elem_of_empty in Hboth. exact Hboth.
Qed.

(** The end of the handler for an entity it found. *)
Lemma dispatch_run (w : World) (e : Entity) (code : string) :
  dispatch (Some e) code w =
    match Entity_update_state e (Some code) w with
    | (Return _, w') =>
        match _async_callback (gateway w') with
        | Some cb =>
            (Return tt,
             mkWorld (gateway w') (area_objs w') (zone_objs w')
               (trace w' ++ [Notified cb e]) (controller w'))
        | None => (Return tt, w')
        end
    | (Raise x, w') => (Raise x, w')
    end.
Proof.
  unfold dispatch. run.
  destruct (Entity_update_state e (Some code) w) as [[[]|x] w']; [|reflexivity].
  destruct (_async_callback (gateway w')); reflexivity.
Qed.

(** The handler gives up, or goes on with one entity. *)
Lemma _async_ws_handler_cases (w : World) (message : sia) :
  _async_ws_handler message w = (Return tt, w) \/
  _async_ws_handler message w = (Raise RuntimeError, w) \/
  exists e : Entity, _async_ws_handler message w = dispatch (Some e) (sia_code message) w.
Proof.
  unfold _async_ws_handler. run.
  destruct (bool_decide (sia_code message ∈ Area_SUPPORTED_SIA_CODES)).
  - destruct (bool_decide (size (_areas (gateway w)) = 1)) eqn:Hsize; [|by right; left].
    apply bool_decide_eq_true_1 in Hsize.
    destruct ((map_to_list (_areas (gateway w))).*2) as [|a rest] eqn:Hvalues.
    + apply (f_equal length) in Hvalues. rewrite length_fmap, length_map_to_list in Hvalues.
      simpl in Hvalues. congruence.
    + right; right. exists (AreaEntity a). reflexivity.
  - destruct (bool_decide (sia_code message ∈ Zone_SUPPORTED_SIA_CODES)); [|by left].
    destruct (_zones (gateway w) !! sia_address message) as [z|]; simpl.
    + right; right. exists (ZoneEntity z). reflexivity.
    + by left.
Qed.

(** X5.  A message whose code is neither an area code nor a zone code is
    dropped whatever its address, that of a loaded zone included: the
    handler returns, and nothing was sent, changed or notified. *)
Theorem unknown_code_is_ignored (w : World) (message : sia) :
  sia_code message ∉ Area_SUPPORTED_SIA_CODES ->
  sia_code message ∉ Zone_SUPPORTED_SIA_CODES ->
  _async_ws_handler message w = (Return tt, w).
Proof.
  intros Harea Hzone. unfold _async_ws_handler. run.
  rewrite (bool_decide_eq_false_2 _ Harea), (bool_decide_eq_false_2 _ Hzone).
  reflexivity.
Qed.

(** X6.  For each of the ten zone codes, a message addressed to a loaded
    zone whose scoped fetch is answered with a record makes the handler
    return after one request and one observer call; the zone has the state
    of that record, and nothing else has changed. *)
Theorem zone_code_refreshes_the_zone (w : World) (message : sia) (z : loc) (o : Zone)
    (cb : Callback) (reply : zone_reply) (data : spc_zone) :
  sia_code message ∈ Zone_SUPPORTED_SIA_CODES ->
  _zones (gateway w) !! sia_address message = Some z ->
  zone_objs w !! z = Some o ->
  _async_callback (gateway w) = Some cb ->
  on_get (controller w) (length (trace w)) (OneZone (Zone_id o)) = Some reply ->
  first_record reply = Some data ->
  _async_ws_handler message w =
    (Return tt,
     mkWorld (gateway w) (area_objs w)
       (<[z := Zone__update o data (Some (sia_code message))]> (zone_objs w))
       (trace w ++ [Sent (GET ("spc/zone/" +:+ Zone_id o)); Notified cb (ZoneEntity z)])
       (controller w)).
Proof.
  intros Hcode Hzone Hobj Hcb Hget Hfirst.
  unfold _async_ws_handler, bind, get_gateway. cbv beta iota zeta.
  rewrite (bool_decide_eq_false_2 _ (zone_code_not_area_code _ Hcode)),
    (bool_decide_eq_true_2 _ Hcode), Hzone.
  change (ZoneEntity <$> Some z) with (Some (ZoneEntity z)).
  rewrite dispatch_run. unfold Entity_update_state.
  rewrite Zone_update_state_run, Hobj, Hget, Hfirst. simpl.
  rewrite Hcb, <- app_assoc. reflexivity.
Qed.

(** X7.  The observer is called even when the refresh brought nothing: if
    the handler finds its entity (the sole area for an area code, the zone
    of the address for a zone code), the scoped fetch yields no data and an
    observer is registered, the handler returns after the request and one
    observer call on that entity, whose state is as before. *)
Theorem handler_notifies_without_data (w : World) (message : sia) (e : Entity)
    (cb : Callback) :
  (sia_code message ∈ Area_SUPPORTED_SIA_CODES /\
     exists (k : string) (a : loc), _areas (gateway w) = {[ k := a ]} /\ e = AreaEntity a) \/
  (sia_code message ∈ Zone_SUPPORTED_SIA_CODES /\
     exists z : loc, _zones (gateway w) !! sia_address message = Some z /\ e = ZoneEntity z) ->
  fetch_yields_nothing w e = true ->
  _async_callback (gateway w) = Some cb ->
  (_async_ws_handler message w).1 = Return tt /\
  observer_calls (trace (_async_ws_handler message w).2) =
    observer_calls (trace w) ++ [(cb, e)] /\
  area_objs (_async_ws_handler message w).2 = area_objs w /\
  zone_objs (_async_ws_handler message w).2 = zone_objs w.
Proof.
  intros Hfound Hnothing Hcb.
  assert (_async_ws_handler message w = dispatch (Some e) (sia_code message) w) as ->.
  { unfold _async_ws_handler, bind, get_gateway. cbv beta iota zeta.
    destruct Hfound as [[Hcode (k & a & Hareas & ->)]|[Hcode (z & Hzone & ->)]].
    - rewrite (bool_decide_eq_true_2 _ Hcode), Hareas, map_size_singleton,
        map_to_list_singleton. reflexivity.
    - rewrite (bool_decide_eq_false_2 _ (zone_code_not_area_code _ Hcode)),
        (bool_decide_eq_true_2 _ Hcode), Hzone. reflexivity. }
  rewrite dispatch_run.
  assert (exists t' : list Event,
            Entity_update_state e (Some (sia_code message)) w
            = (Return tt, mkWorld (gateway w) (area_objs w) (zone_objs w) t' (controller w))
            /\ observer_calls t' = observer_calls (trace w)) as (t' & -> & Hcalls).
  { unfold fetch_yields_nothing in Hnothing.
    destruct e as [a|z]; unfold Entity_update_state.
    - rewrite Area_update_state_run.
      destruct (_ !! a) as [o|]; [|discriminate].
      destruct (on_get _ _ _); [discriminate|]. eexists. split; [reflexivity|].
      unfold observer_calls. rewrite omap_app. simpl. apply app_nil_r.
    - rewrite Zone_update_state_run.
      destruct (_ !! z) as [o|]; [|discriminate].
      destruct (on_get _ _ _); [discriminate|]. eexists. split; [reflexivity|].
      unfold observer_calls. rewrite omap_app. simpl. apply app_nil_r. }
  simpl. rewrite Hcb. simpl.
  unfold observer_calls in *. rewrite omap_app, Hcalls. simpl. auto.
Qed.

(** X8.  Whatever the message and the world, the handler sends one request
    at most, a [GET], and calls the observer once at most: after that
    request, when it returns, and on the callback registered. *)
Theorem handler_effects_are_bounded (w : World) (message : sia) :
  trace (_async_ws_handler message w).2 = trace w \/
  (exists url : string,
     trace (_async_ws_handler message w).2 = trace w ++ [Sent (GET url)]) \/
  (exists (url : string) (cb : Callback) (e : Entity),
     _async_callback (gateway w) = Some cb /\
     (_async_ws_handler message w).1 = Return tt /\
     trace (_async_ws_handler message w).2 =
       trace w ++ [Sent (GET url); Notified cb e]).
Proof.
  destruct (_async_ws_handler_cases w message) as [->|[->|[e ->]]];
    [by left|by left|].
  rewrite dispatch_run.
  pose proof (Entity_update_state_same_registry w e (Some (sia_code message)))
    as (Hgw & _ & _).
  destruct (Entity_update_state_trace w e (Some (sia_code message)))
    as [->|[url Htrace]]; [by left|].
  destruct (Entity_update_state e (Some (sia_code message)) w) as [[[]|x] w'];
    simpl in *; [|eauto].
  rewrite Hgw. destruct (_async_callback (gateway w)) as [cb|]; simpl; [|eauto].
  right; right. exists url, cb, e. rewrite Htrace, <- app_assoc. auto.
Qed.

Lemma Entity_update_state_calls (w : World) (e : Entity) (code : option string) :
  observer_calls (trace (Entity_update_state e code w).2) = observer_calls (trace w).
Proof.
  destruct (Entity_update_state_trace w e code) as [->|[url ->]]; [reflexivity|].
  unfold observer_calls. rewrite omap_app. simpl. apply app_nil_r.
Qed.

(** X10.  On a gateway without a registered observer no message leads to an
    observer call, whatever else the handler does. *)
Theorem handler_without_observer (w : World) (message : sia) :
  _async_callback (gateway w) = None ->
  observer_calls (trace (_async_ws_handler message w).2) = observer_calls (trace w).
Proof.
  intros Hcb.
  destruct (_async_ws_handler_cases w message) as [->|[->|[e ->]]]; [done|done|].
  rewrite dispatch_run.
  pose proof (Entity_update_state_same_registry w e (Some (sia_code message)))
    as (Hgw & _ & _).
  pose proof (Entity_update_state_calls w e (Some (sia_code message))) as Hcalls.
  destruct (Entity_update_state e (Some (sia_code message)) w) as [[[]|x] w'];
    simpl in *; [|exact Hcalls].
  rewrite Hgw, Hcb. exact Hcalls.
Qed.

(** X21.  If the handler finds its entity (the sole area for an area code,
    the zone of the address for a zone code) and the scoped fetch is
    answered by an empty list, the handler raises [IndexError] after the
    request: the observer is not called, registered or not, and no entity
    has changed. *)
Theorem handler_raises_on_empty_list (w : World) (message : sia) (e : Entity) :
  (sia_code message ∈ Area_SUPPORTED_SIA_CODES /\
     exists (k : string) (a : loc), _areas (gateway w) = {[ k := a ]} /\ e = AreaEntity a) \/
  (sia_code message ∈ Zone_SUPPORTED_SIA_CODES /\
     exists z : loc, _zones (gateway w) !! sia_address message = Some z /\ e = ZoneEntity z) ->
  fetch_yields_empty_list w e = true ->
  (_async_ws_handler message w).1 = Raise IndexError /\
  observer_calls (trace (_async_ws_handler message w).2) = observer_calls (trace w) /\
  area_objs (_async_ws_handler message w).2 = area_objs w /\
  zone_objs (_async_ws_handler message w).2 = zone_objs w.
Proof.
  intros Hfound Hempty.
  assert (_async_ws_handler message w = dispatch (Some e) (sia_code message) w) as ->.
  { unfold _async_ws_handler, bind, get_gateway. cbv beta iota zeta.
    destruct Hfound as [[Hcode (k & a & Hareas & ->)]|[Hcode (z & Hzone & ->)]].
    - rewrite (bool_decide_eq_true_2 _ Hcode), Hareas, map_size_singleton,
        map_to_list_singleton. reflexivity.
    - rewrite (bool_decide_eq_false_2 _ (zone_code_not_area_code _ Hcode)),
        (bool_decide_eq_true_2 _ Hcode), Hzone. reflexivity. }
  rewrite dispatch_run.
  pose proof (Entity_update_state_calls w e (Some (sia_code message))) as Hcalls.
  assert ((Entity_update_state e (Some (sia_code message)) w).1 = Raise IndexError /\
          area_objs (Entity_update_state e (Some (sia_code message)) w).2 = area_objs w /\
          zone_objs (Entity_update_state e (Some (sia_code message)) w).2 = zone_objs w)
    as (Hout & Hareas & Hzones).
  { unfold fetch_yields_empty_list in Hempty.
    destruct e as [a|z]; unfold Entity_update_state.
    - rewrite Area_update_state_run.
      destruct (_ !! a) as [o|]; [|discriminate].
      destruct (on_get _ _ _) as [[|data rest]|]; try discriminate. done.
    - rewrite Zone_update_state_run.
      destruct (_ !! z) as [o|]; [|discriminate].
      destruct (on_get _ _ _) as [[[|data rest]|data|record|record]|];
        try discriminate. done. }
  destruct (Entity_update_state e (Some (sia_code message)) w) as [outcome w'].
  simpl in *. subst outcome. auto.
Qed.

End HandlerExtras.

Section CommandExtras.
Context `{C : Const}.

Lemma same_registry_trans (w1 w2 w3 : World) :
  same_registry w1 w2 -> same_registry w2 w3 -> same_registry w1 w3.
Proof.
  intros (Hg & Ha & Hz) (Hg' & Ha' & Hz'). unfold same_registry.
  rewrite Hg', Ha', Hz'. auto.
Qed.

(** The command, once the mode is a mode and the area is found. *)
Lemma change_mode_run (w : World) (area : py_value) (mode : AreaMode) (a : loc) (o : Area) :
  area = PyArea a \/ (exists k, area = PyStr k /\ _areas (gateway w) !! k = Some a) ->
  area_objs w !! a = Some o ->
  change_mode area (PyAreaMode mode) w =
    let url := "spc/area/" +:+ Area_id o +:+ "/" +:+ AREA_MODE_COMMAND_MAP mode in
    match Area_update_state a None (sent w (PUT url)) with
    | (Return _, w') => (Return (on_put (controller w) (length (trace w)) url), w')
    | (Raise x, w') => (Raise x, w')
    end.
Proof.
  intros Harea Hobj.
  assert (match area with PyArea a' => Some a' | _ => areas_get (gateway w) area end
          = Some a) as Hres.
  { destruct Harea as [->|(k & -> & Hk)]; [reflexivity|exact Hk]. }
  unfold change_mode, bind, get_gateway. cbv beta iota zeta.
  rewrite Hres. unfold read_area. rewrite Hobj.
  unfold async_put_request, sent, ret.
  destruct (Area_update_state a None _) as [[[]|x] w']; reflexivity.
Qed.

(** The command stops before sending anything, or sends one [PUT] and
    refreshes one area. *)
Lemma change_mode_cases (w : World) (area new_mode : py_value) :
  (exists x : exn, change_mode area new_mode w = (Raise x, w)) \/
  (exists (a : loc) (url : string),
     (change_mode area new_mode w).2 = (Area_update_state a None (sent w (PUT url))).2).
Proof.
  destruct new_mode as [| | |mode|]; try (left; eexists; reflexivity).
  unfold change_mode, bind, get_gateway. cbv beta iota zeta.
  destruct (match area with PyArea a' => Some a' | _ => areas_get (gateway w) area end)
    as [a|]; [|left; eexists; reflexivity].
  unfold read_area. destruct (area_objs w !! a) as [o|]; [|left; eexists; reflexivity].
  right. exists a, ("spc/area/" +:+ Area_id o +:+ "/" +:+ AREA_MODE_COMMAND_MAP mode).
  unfold async_put_request, sent, ret.
  destruct (Area_update_state a None _) as [[[]|x] w']; reflexivity.
Qed.

(** X11.  With a mode for [new_mode] and, for [area], a value that is
    neither an [Area] nor a key of [_areas], [change_mode] raises
    [AttributeError] before anything is sent or changed. *)
Theorem change_mode_unknown_area (w : World) (area : py_value) (mode : AreaMode) :
  (forall a : loc, area ≠ PyArea a) ->
  areas_get (gateway w) area = None ->
  change_mode area (PyAreaMode mode) w = (Raise AttributeError, w).
Proof.
  intros Hnot Hget. unfold change_mode, bind, get_gateway. cbv beta iota zeta.
  destruct area as [| | | |a]; try (rewrite Hget; reflexivity).
  destruct (Hnot a eq_refl).
Qed.

(** X12.  The command and the refresh do not wait on each other's success:
    whatever the [PUT] was answered, no data included, [change_mode] goes on
    to fetch the area, stores what that fetch brings, and returns the answer
    to the [PUT]. *)
Theorem change_mode_returns_the_answer (w : World) (area : py_value) (mode : AreaMode)
    (a : loc) (o : Area) (data : spc_area) (rest : list spc_area) :
  area = PyArea a \/ (exists k, area = PyStr k /\ _areas (gateway w) !! k = Some a) ->
  area_objs w !! a = Some o ->
  on_get (controller w) (S (length (trace w))) (OneArea (Area_id o)) = Some (data :: rest) ->
  change_mode area (PyAreaMode mode) w =
    (Return (on_put (controller w) (length (trace w))
               ("spc/area/" +:+ Area_id o +:+ "/" +:+ AREA_MODE_COMMAND_MAP mode)),
     mkWorld (gateway w) (<[a := Area__update o data None]> (area_objs w)) (zone_objs w)
       (trace w ++
        [ Sent (PUT ("spc/area/" +:+ Area_id o +:+ "/" +:+ AREA_MODE_COMMAND_MAP mode));
          Sent (GET ("spc/area/" +:+ Area_id o)) ])
       (controller w)).
Proof.
  intros Harea Hobj Hget. rewrite (change_mode_run w area mode a o Harea Hobj).
  cbv zeta. rewrite Area_update_state_run. unfold sent. simpl.
  rewrite Hobj, length_app. simpl. rewrite Nat.add_1_r, Hget, <- app_assoc.
  reflexivity.
Qed.

End CommandExtras.

Section InvariantExtras.
Context `{C : Const}.

Lemma same_registry_sym (w w' : World) : same_registry w w' -> same_registry w' w.
Proof. intros (Hg & Ha & Hz). unfold same_registry. auto. Qed.

Lemma same_registry_area (w w' : World) (a : loc) (o' : Area) :
  same_registry w w' ->
  area_objs w' !! a = Some o' ->
  exists o : Area, area_objs w !! a = Some o /\ Area_identity o = Area_identity o'.
Proof.
  intros (_ & Ha & _) Hobj. unfold loc in *.
  apply (f_equal (fun l => l !! a)) in Ha. simpl in Ha.
  rewrite !list_lookup_fmap, Hobj in Ha. simpl in Ha.
  destruct (area_objs w !! a) as [o|]; [|discriminate].
  exists o. split; [reflexivity|]. simpl in Ha. congruence.
Qed.

Lemma same_registry_zone (w w' : World) (z : loc) (o' : Zone) :
  same_registry w w' ->
  zone_objs w' !! z = Some o' ->
  exists o : Zone, zone_objs w !! z = Some o /\ Zone_identity o = Zone_identity o'.
Proof.
  intros (_ & _ & Hz) Hobj. unfold loc in *.
  apply (f_equal (fun l => l !! z)) in Hz. simpl in Hz.
  rewrite !list_lookup_fmap, Hobj in Hz. simpl in Hz.
  destruct (zone_objs w !! z) as [o|]; [|discriminate].
  exists o. split; [reflexivity|]. simpl in Hz. congruence.
Qed.

Lemma same_registry_held (w w' : World) (z : loc) :
  same_registry w w' -> held_by_an_area w' z -> held_by_an_area w z.
Proof.
  intros Hsame (k & a & o' & zs & Hk & Ho' & Hzs & Hz).
  destruct (same_registry_area w w' a o' Hsame Ho') as (o & Ho & Hid).
  exists k, a, o, zs. destruct Hsame as (Hg & _ & _). rewrite Hg in Hk.
  repeat split; try assumption.
  unfold Area_identity in Hid. congruence.
Qed.

(** The consistency of the registry is a matter of the registry alone. *)
Lemma registry_consistent_same_registry (w w' : World) :
  same_registry w w' -> registry_consistent w -> registry_consistent w'.
Proof.
  intros Hsame [Hback Hheld Hentries Hnodup].
  pose proof Hsame as (Hg & _ & _).
  split; rewrite ?Hg.
  - intros z o' Ho'.
    destruct (same_registry_zone w w' z o' Hsame Ho') as (o & Ho & Hid).
    destruct (Hback z o Ho) as [k Hk]. exists k. rewrite Hk.
    unfold Zone_identity, Zone_area in *. congruence.
  - intros z Hz. apply (same_registry_held w w' z Hsame) in Hz.
    destruct (Hheld z Hz) as (o & Ho & Hentry).
    destruct (same_registry_zone w' w z o (same_registry_sym _ _ Hsame) Ho)
      as (o' & Ho' & Hid).
    exists o'. split; [exact Ho'|].
    unfold Zone_identity, Zone_id in *. replace (Zone__id o') with (Zone__id o) by congruence.
    exact Hentry.
  - intros k z Hk. destruct (Hentries k z Hk) as [Hz Hid]. split.
    + apply (same_registry_held w' w z (same_registry_sym _ _ Hsame) Hz).
    + destruct (zone_objs w !! z) as [o|] eqn:Ho; [|discriminate].
      destruct (same_registry_zone w' w z o (same_registry_sym _ _ Hsame) Ho)
        as (o' & Ho' & Hid').
      rewrite Ho'. simpl in *. unfold Zone_identity, Zone_id in *. congruence.
  - intros k a o' zs Hk Ho' Hzs.
    destruct (same_registry_area w w' a o' Hsame Ho') as (o & Ho & Hid).
    apply (Hnodup k a o zs Hk Ho). unfold Area_identity in Hid. congruence.
Qed.

Lemma _async_ws_handler_same_registry (w : World) (message : sia) :
  same_registry w (_async_ws_handler message w).2.
Proof.
  destruct (_async_ws_handler_cases w message) as [->|[->|[e ->]]];
    [done|done|].
  rewrite dispatch_run.
  pose proof (Entity_update_state_same_registry w e (Some (sia_code message))) as Hsame.
  destruct (Entity_update_state e (Some (sia_code message)) w) as [[[]|x] w'];
    simpl in *; [|exact Hsame].
  destruct (_async_callback (gateway w')); exact Hsame.
Qed.

Lemma change_mode_same_registry (w : World) (area new_mode : py_value) :
  same_registry w (change_mode area new_mode w).2.
Proof.
  destruct (change_mode_cases w area new_mode) as [[x ->]|(a & url & ->)]; [done|].
  apply (same_registry_trans w (sent w (PUT url))); [done|].
  apply (Entity_update_state_same_registry (sent w (PUT url)) (AreaEntity a) None).
Qed.

(** X9.  Through any run of websocket messages and [change_mode] calls,
    returning or raising, the registry stays as the load left it: [_info],
    both dicts and the callback are the same, no entity is made or dropped,
    and no entity changes its identifier, its name, its area or its zones.
    A registry that was consistent is so after the run. *)
Theorem calls_keep_the_registry (w : World) (calls : list call) :
  same_registry w (after_calls w calls) /\
  (registry_consistent w -> registry_consistent (after_calls w calls)).
Proof.
  assert (same_registry w (after_calls w calls)) as Hsame.
  { revert w. induction calls as [|c calls IH]; intros w; [done|].
    simpl. apply (same_registry_trans w (after_call w c)); [|apply IH].
    destruct c as [message|area new_mode]; simpl.
    - apply _async_ws_handler_same_registry.
    - apply change_mode_same_registry. }
  split; [exact Hsame|].
  apply registry_consistent_same_registry, Hsame.
Qed.

End InvariantExtras.

Section LoadExtras.
Context `{C : Const}.

(** X13.  Whatever the controller answers, a load sends the same three
    requests in the same order (panel, zones, areas) and no other, keeps
    the callback, and stores the panel record in [_info], or [None] when
    that fetch yields nothing; this also when the load reports failure. *)
Theorem load_sends_three_requests (w : World) :
  trace (async_load_parameters w).2 =
    trace w ++ [Sent (GET "spc/panel"); Sent (GET "spc/zone"); Sent (GET "spc/area")] /\
  _info (gateway (async_load_parameters w).2) =
    match on_get (controller w) (length (trace w)) PanelInfo with
    | Some panel => panel
    | None => JNull
    end /\
  _async_callback (gateway (async_load_parameters w).2) = _async_callback (gateway w).
Proof.
  rewrite async_load_parameters_run.
  destruct (reported_zones w) as [[|zone zones]|]; try done.
  destruct (reported_areas w) as [[|spc_area [|other areas]]|]; done.
Qed.

(** X14.  A load that finds a zone list with something in it and one area
    succeeds, and makes one zone for each record of the list whose [area]
    is the identifier of the area, in the order of the list, and none for
    any other record (so none at all when no record names the area); the
    area, made from its record (no verified alarm, ["N/A"] for a user name
    the record lacks), is stored under its identifier and holds exactly the
    zones made. *)
Theorem load_makes_the_zones_of_the_area (w : World) (zone : spc_zone)
    (zones : list spc_zone) (spc_area : spc_area) :
  reported_zones w = Some (zone :: zones) ->
  reported_areas w = Some [spc_area] ->
  let a := length (area_objs w) in
  let records := filter (fun record => zone_area record = area_id spc_area) (zone :: zones) in
  (async_load_parameters w).1 = Return true /\
  zone_objs (async_load_parameters w).2 =
    zone_objs w ++ (Zone__init__ the_gateway a <$> records) /\
  area_objs (async_load_parameters w).2 =
    area_objs w ++
    [ mkArea the_gateway (area_id spc_area) (area_name spc_area) false
        (Some (seq (length (zone_objs w)) (length records)))
        (AreaMode_call (area_mode spc_area))
        (default "N/A" (area_last_set_user_name spc_area))
        (default "N/A" (area_last_unset_user_name spc_area)) ] /\
  _areas (gateway (async_load_parameters w).2) =
    <[area_id spc_area := a]> (_areas (gateway w)).
Proof.
  intros Hzones Hareas. rewrite async_load_parameters_run, Hzones, Hareas. simpl.
  split; [reflexivity|]. split; [reflexivity|]. split; [|reflexivity].
  unfold _load_enum. destruct (AreaMode_call (area_mode spc_area)); reflexivity.
Qed.

(** Which position the dict of the zones keeps for an identifier: the last. *)
Lemma by_id_last_wins (ids : list string) (k : string) (z : nat) :
  (list_to_map (reverse (zip ids (seq 0 (length ids)))) : gmap string nat) !! k = Some z <->
  ids !! z = Some k /\ forall z' : nat, z < z' -> ids !! z' ≠ Some k.
Proof.
  revert z. induction ids as [|id ids IH] using rev_ind; intros z.
  - simpl. rewrite lookup_empty. split; [discriminate|]. intros [Hz _]. discriminate.
  - rewrite length_app. simpl. rewrite Nat.add_1_r, seq_S. simpl.
    rewrite zip_with_app by (rewrite length_seq; reflexivity). simpl.
    rewrite reverse_app. simpl. rewrite lookup_insert_Some, IH.
    split.
    + intros [[<- <-]|[Hne [Hz Hlast]]].
      * split; [apply list_lookup_middle; reflexivity|].
        intros z' Hz'. rewrite lookup_ge_None_2; [discriminate|].
        rewrite length_app. simpl. lia.
      * split; [apply lookup_app_l_Some, Hz|].
        intros z' Hz'. destruct (decide (z' < length ids)) as [Hlt|Hge].
        -- rewrite lookup_app_l by exact Hlt. apply Hlast, Hz'.
        -- destruct (decide (z' = length ids)) as [->|Hne'].
           ++ rewrite list_lookup_middle by reflexivity. congruence.
           ++ rewrite lookup_ge_None_2; [discriminate|].
              rewrite length_app. simpl. lia.
    + intros [Hz Hlast]. destruct (decide (id = k)) as [->|Hne].
      * left. split; [reflexivity|].
        destruct (decide (z = length ids)) as [->|Hne]; [reflexivity|].
        assert (z < length ids) as Hlt.
        { pose proof (lookup_lt_Some _ _ _ Hz) as Hlen.
          rewrite length_app in Hlen. simpl in Hlen. lia. }
        destruct (Hlast (length ids) Hlt). apply list_lookup_middle. reflexivity.
      * right. split; [exact Hne|].
        assert (z < length ids) as Hlt.
        { pose proof (lookup_lt_Some _ _ _ Hz) as Hlen.
          rewrite length_app in Hlen. simpl in Hlen.
          destruct (decide (z = length ids)) as [->|Hne']; [|lia].
          rewrite list_lookup_middle in Hz by reflexivity. congruence. }
        rewrite lookup_app_l in Hz by exact Hlt. split; [exact Hz|].
        intros z' Hz'. specialize (Hlast z' Hz').
        destruct (decide (z' < length ids)) as [Hlt'|Hge].
        -- rewrite lookup_app_l in Hlast by exact Hlt'. exact Hlast.
        -- rewrite lookup_ge_None_2 by lia. discriminate.
Qed.

(** X15.  After a successful load on a gateway that had loaded nothing
    before, the entry of [_zones] under an identifier is the last zone made
    with that identifier: when the controller reports an identifier twice,
    the later record wins the entry. *)
Theorem load_keeps_the_last_zone (w w' : World) (k : string) (z : loc) :
  nothing_loaded w ->
  async_load_parameters w = (Return true, w') ->
  _zones (gateway w') !! k = Some z <->
  Zone_id <$> zone_objs w' !! z = Some k /\
  forall z' : loc, z < z' -> Zone_id <$> zone_objs w' !! z' ≠ Some k.
Proof.
  intros (Hareas & Hzones & Harea_dict & Hzone_dict).
  rewrite async_load_parameters_run.
  destruct (reported_zones _) as [[|zone zones]|]; try discriminate.
  destruct (reported_areas _) as [[|spc_area [|other areas]]|]; try discriminate.
  intros [= <-]. unfold with_area. simpl.
  rewrite Hareas, Hzones, Hzone_dict. simpl.
  rewrite (right_id_L ∅ (∪)).
  set (records := zones_in spc_area (zone :: zones)).
  rewrite <- (length_fmap zone_id records), by_id_last_wins.
  unfold loc in *. 
  assert (forall i : nat,
            Zone_id <$> (Zone__init__ the_gateway 0 <$> records) !! i
            = (zone_id <$> records) !! i) as Hid.
  { intros i. rewrite !list_lookup_fmap. destruct (records !! i); reflexivity. }
  rewrite Hid. split; intros [Hz Hlast]; (split; [exact Hz|]);
    intros z' Hz'; specialize (Hlast z' Hz'); rewrite Hid in *; exact Hlast.
Qed.

(** What a successful load leaves on a gateway that had loaded nothing. *)
Lemma first_load_run (w w' : World) :
  nothing_loaded w ->
  async_load_parameters w = (Return true, w') ->
  exists (zones : list spc_zone) (spc_area : spc_area),
    let records := zones_in spc_area zones in
    _areas (gateway w') = {[ area_id spc_area := 0 ]} /\
    _zones (gateway w') =
      list_to_map (reverse (zip (zone_id <$> records) (seq 0 (length records)))) /\
    (exists o : Area, area_objs w' = [o] /\ Area_id o = area_id spc_area) /\
    zone_objs w' = (Zone__init__ the_gateway 0 <$> records) /\
    trace w' = trace (fetched w) /\ controller w' = controller w.
Proof.
  intros (Hareas & Hzones & Harea_dict & Hzone_dict).
  rewrite async_load_parameters_run.
  destruct (reported_zones _) as [[|zone zones]|]; try discriminate.
  destruct (reported_areas _) as [[|spc_area [|other areas]]|]; try discriminate.
  intros [= <-]. exists (zone :: zones), spc_area. unfold with_area. simpl.
  rewrite Hareas, Hzones, Harea_dict, Hzone_dict, (right_id_L ∅ (∪)). simpl.
  repeat split; eauto.
Qed.

Lemma Entity_update_state_outcome (w : World) (e : Entity) (code : option string) :
  (Entity_update_state e code w).1 ≠ Raise RuntimeError.
Proof.
  destruct e as [a|z]; unfold Entity_update_state.
  - rewrite Area_update_state_run. destruct (_ !! a) as [o|]; [|done].
    destruct (on_get _ _ _) as [[|data rest]|]; done.
  - rewrite Zone_update_state_run. destruct (_ !! z) as [o|]; [|done].
    destruct (on_get _ _ _) as [[[|data rest]|data|record|record]|]; simpl; try done.
    all: destruct (Zone__update_partial_outcome o record code) as [-> | ->]; done.
Qed.

(** The handler, once it has an entity that is in the store: its scoped
    fetch is the next event of the trace. *)
Lemma dispatch_trace (w : World) (e : Entity) (code : string) (url : string) :
  match e with
  | AreaEntity a => exists o, area_objs w !! a = Some o /\ url = "spc/area/" +:+ Area_id o
  | ZoneEntity z => exists o, zone_objs w !! z = Some o /\ url = "spc/zone/" +:+ Zone_id o
  end ->
  (dispatch (Some e) code w).1 ≠ Raise RuntimeError /\
  exists rest : list Event,
    trace (dispatch (Some e) code w).2 = trace w ++ Sent (GET url) :: rest.
Proof.
  intros He. rewrite dispatch_run.
  pose proof (Entity_update_state_outcome w e (Some code)) as Hout.
  assert (trace (Entity_update_state e (Some code) w).2 = trace w ++ [Sent (GET url)])
    as Htrace.
  { destruct e as [a|z]; destruct He as (o & Hobj & ->); unfold Entity_update_state.
    - rewrite Area_update_state_run. unfold loc in *. rewrite Hobj.
      destruct (on_get _ _ _) as [[|data rest]|]; reflexivity.
    - rewrite Zone_update_state_run. unfold loc in *. rewrite Hobj.
      destruct (on_get _ _ _) as [[[|data rest]|data|record|record]|]; reflexivity. }
  destruct (Entity_update_state e (Some code) w) as [[[]|x] w']; simpl in *.
  - destruct (_async_callback (gateway w')) as [cb|]; simpl.
    + split; [done|]. rewrite Htrace, <- app_assoc. eauto.
    + split; [done|]. rewrite Htrace. eauto.
  - split; [exact Hout|]. rewrite Htrace. eauto.
Qed.

(** X16.  After a successful load on a gateway that had loaded nothing
    before there is one area, and an area-class message, whatever its
    address, never raises [RuntimeError]: the handler sends the scoped fetch
    of that area. *)
Theorem area_code_after_load (w w' : World) (message : sia) :
  nothing_loaded w ->
  async_load_parameters w = (Return true, w') ->
  sia_code message ∈ Area_SUPPORTED_SIA_CODES ->
  size (_areas (gateway w')) = 1 /\
  (_async_ws_handler message w').1 ≠ Raise RuntimeError /\
  exists (o : Area) (rest : list Event),
    area_objs w' = [o] /\
    trace (_async_ws_handler message w').2 =
      trace w' ++ Sent (GET ("spc/area/" +:+ Area_id o)) :: rest.
Proof.
  intros Hnothing Hload Hcode.
  destruct (first_load_run w w' Hnothing Hload)
    as (zones & spc_area & Harea_dict & _ & (o & Hobjs & _) & _).
  split; [rewrite Harea_dict; apply map_size_singleton|].
  assert (_async_ws_handler message w' = dispatch (Some (AreaEntity 0)) (sia_code message) w')
    as ->.
  { unfold _async_ws_handler, bind, get_gateway. cbv beta iota zeta.
    rewrite (bool_decide_eq_true_2 _ Hcode), Harea_dict, map_size_singleton,
      map_to_list_singleton. reflexivity. }
  destruct (dispatch_trace w' (AreaEntity 0) (sia_code message)
              ("spc/area/" +:+ Area_id o)) as [Hout [rest Htrace]].
  { exists o. rewrite Hobjs. done. }
  split; [exact Hout|]. eauto.
Qed.

Lemma loaded_zone_is_an_entry (w w' : World) (z : loc) (o : Zone) :
  nothing_loaded w ->
  async_load_parameters w = (Return true, w') ->
  NoDup (Zone_id <$> zone_objs w') ->
  zone_objs w' !! z = Some o ->
  _zones (gateway w') !! Zone_id o = Some z.
Proof.
  intros Hnothing Hload.
  destruct (first_load_run w w' Hnothing Hload)
    as (zones & spc_area & _ & -> & _ & -> & _).
  cbv zeta. set (records := zones_in spc_area zones).
  rewrite <- list_fmap_compose.
  change (Zone_id ∘ Zone__init__ the_gateway 0) with zone_id.
  intros Hnodup Hobj.
  apply list_lookup_fmap_Some in Hobj as (record & -> & Hrecord).
  rewrite <- (length_fmap zone_id records).
  apply (by_id_lookup _ 0 z); [exact Hnodup|].
  rewrite list_lookup_fmap, Hrecord. reflexivity.
Qed.

(** X17.  After a successful load on a gateway that had loaded nothing
    before, with no identifier reported twice, a zone-class message
    addressed to the identifier of any zone made by the load reaches that
    zone: the handler sends its scoped fetch. *)
Theorem zone_code_after_load (w w' : World) (message : sia) (z : loc) (o : Zone) :
  nothing_loaded w ->
  async_load_parameters w = (Return true, w') ->
  NoDup (Zone_id <$> zone_objs w') ->
  zone_objs w' !! z = Some o ->
  sia_code message ∈ Zone_SUPPORTED_SIA_CODES ->
  sia_address message = Zone_id o ->
  exists rest : list Event,
    trace (_async_ws_handler message w').2 =
      trace w' ++ Sent (GET ("spc/zone/" +:+ Zone_id o)) :: rest.
Proof.
  intros Hnothing Hload Hnodup Hobj Hcode Haddress.
  pose proof (loaded_zone_is_an_entry w w' z o Hnothing Hload Hnodup Hobj) as Hentry.
  assert (_async_ws_handler message w' = dispatch (Some (ZoneEntity z)) (sia_code message) w')
    as ->.
  { unfold _async_ws_handler, bind, get_gateway. cbv beta iota zeta.
    rewrite (bool_decide_eq_false_2 _ (zone_code_not_area_code _ Hcode)),
      (bool_decide_eq_true_2 _ Hcode), Haddress, Hentry. reflexivity. }
  apply dispatch_trace. eauto.
Qed.

(** X18.  After a successful load on a gateway that had loaded nothing
    before, [change_mode] called with the identifier of the loaded area and
    a mode finds the area: it sends the command for that mode on the area's
    path, then the scoped fetch of the area. *)
Theorem change_mode_after_load (w w' : World) (a : loc) (o : Area) (mode : AreaMode) :
  nothing_loaded w ->
  async_load_parameters w = (Return true, w') ->
  area_objs w' !! a = Some o ->
  trace (change_mode (PyStr (Area_id o)) (PyAreaMode mode) w').2 =
    trace w' ++
    [ Sent (PUT ("spc/area/" +:+ Area_id o +:+ "/" +:+ AREA_MODE_COMMAND_MAP mode));
      Sent (GET ("spc/area/" +:+ Area_id o)) ].
Proof.
  intros Hnothing Hload Hobj.
  destruct (first_load_run w w' Hnothing Hload)
    as (zones & spc_area & Harea_dict & _ & (o' & Hobjs & Hid) & _).
  assert (a = 0 /\ o' = o) as [-> ->].
  { rewrite Hobjs in Hobj. destruct a as [|a]; [|discriminate].
    simpl in Hobj. split; congruence. }
  rewrite (change_mode_run w' (PyStr (Area_id o)) mode 0 o).
  - cbv zeta. rewrite Area_update_state_run. unfold sent. simpl.
    rewrite Hobj. destruct (on_get _ _ _) as [[|data rest]|]; simpl;
      rewrite <- app_assoc; reflexivity.
  - right. exists (Area_id o). split; [reflexivity|].
    rewrite Harea_dict, Hid. apply lookup_singleton_eq.
  - exact Hobj.
Qed.

(** X20.  Nothing stops a second load.  On a gateway that holds an area, a
    load that succeeds with an area under another identifier leaves two
    areas, and from then on every area-class message raises [RuntimeError]
    and does nothing else. *)
Theorem second_area_breaks_area_codes (w : World) (zone : spc_zone)
    (zones : list spc_zone) (spc_area : spc_area) (message : sia) :
  size (_areas (gateway w)) = 1 ->
  _areas (gateway w) !! area_id spc_area = None ->
  reported_zones w = Some (zone :: zones) ->
  reported_areas w = Some [spc_area] ->
  sia_code message ∈ Area_SUPPORTED_SIA_CODES ->
  (async_load_parameters w).1 = Return true /\
  size (_areas (gateway (async_load_parameters w).2)) = 2 /\
  _async_ws_handler message (async_load_parameters w).2 =
    (Raise RuntimeError, (async_load_parameters w).2).
Proof.
  intros Hsize Hnew Hzones Hareas Hcode.
  rewrite async_load_parameters_run, Hzones, Hareas. simpl.
  assert (size (<[area_id spc_area := length (area_objs w)]> (_areas (gateway w))) = 2)
    as Htwo by (rewrite map_size_insert_None, Hsize by exact Hnew; reflexivity).
  split; [reflexivity|]. split; [exact Htwo|].
  unfold _async_ws_handler, bind, get_gateway. cbv beta iota zeta.
  rewrite (bool_decide_eq_true_2 _ Hcode). simpl. rewrite Htwo. reflexivity.
Qed.

(** X19.  [serial_number] raises [TypeError] on a gateway just constructed
    and after a load whose panel fetch yielded nothing ([_info] is [None]);
    after a load that stored a panel record without a ["data"] key of its
    own it raises [KeyError], whatever the fields of the record. *)
Theorem serial_number_after_load (w : World) (cb : option Callback) :
  serial_number (SpcWebGateway__init__ cb) = Raise TypeError /\
  (no_data (on_get (controller w) (length (trace w)) PanelInfo) = true ->
   serial_number (gateway (async_load_parameters w).2) = Raise TypeError) /\
  (forall fields : list (string * json),
     on_get (controller w) (length (trace w)) PanelInfo = Some (JObj fields) ->
     "data" ∉ fields.*1 ->
     serial_number (gateway (async_load_parameters w).2) = Raise KeyError).
Proof.
  split; [reflexivity|].
  assert (_info (gateway (async_load_parameters w).2) =
          match on_get (controller w) (length (trace w)) PanelInfo with
          | Some panel => panel
          | None => JNull
          end) as Hinfo.
  { rewrite async_load_parameters_run.
    destruct (reported_zones w) as [[|zone zones]|]; try done.
    destruct (reported_areas w) as [[|spc_area [|other areas]]|]; done. }
  unfold serial_number. rewrite Hinfo. split.
  - destruct (on_get _ _ _); [discriminate|reflexivity].
  - intros fields -> Hkey. unfold subscript.
    destruct (list_find _ fields) as [[i [k v]]|] eqn:Hfind; [|reflexivity].
    apply list_find_Some in Hfind as (Hi & Hk & _). simpl in Hk. subst k.
    destruct Hkey. apply list_elem_of_fmap. exists ("data", v).
    split; [reflexivity|]. eapply list_elem_of_lookup_2, Hi.
Qed.

End LoadExtras.

(** ** The further properties on the sample installation *)

(** The sample installation is consistent. *)
Lemma loaded_world_consistent : registry_consistent loaded_world.
Proof.
  assert (_areas (gateway loaded_world) = {[ "1" := 0 ]}) as Harea_dict
    by (vm_compute; reflexivity).
  assert (_zones (gateway loaded_world) = <[ "1" := 0 ]> {[ "2" := 1 ]}) as Hzone_dict
    by (vm_compute; reflexivity).
  assert (area_objs loaded_world = [house_area]) as Hareas by reflexivity.
  assert (zone_objs loaded_world = [hall_zone; kitchen_zone]) as Hzones by reflexivity.
  assert (forall z : loc, held_by_an_area loaded_world z <-> z = 0 \/ z = 1) as Hheld.
  { intros z. unfold held_by_an_area. rewrite Harea_dict, Hareas. split.
    - intros (k & a & o & zs & Hk & Ho & Hzs & Hz).
      apply lookup_singleton_Some in Hk as [_ <-]. injection Ho as <-.
      injection Hzs as <-. rewrite !elem_of_cons, elem_of_nil in Hz. tauto.
    - intros Hz. exists "1", 0, house_area, [0; 1].
      split; [apply lookup_singleton_eq|]. split; [reflexivity|].
      split; [reflexivity|]. rewrite !elem_of_cons. tauto. }
  split.
  - intros z o Ho. exists "1". rewrite Harea_dict. rewrite Hzones in Ho.
    destruct z as [|[|z]]; try discriminate; injection Ho as <-;
      apply lookup_singleton_eq.
  - intros z Hz. apply Hheld in Hz as [-> | ->].
    + exists hall_zone. split; [reflexivity|]. vm_compute. reflexivity.
    + exists kitchen_zone. split; [reflexivity|]. vm_compute. reflexivity.
  - intros k z Hk. rewrite Hzone_dict in Hk.
    apply lookup_insert_Some in Hk as [[<- <-]|[_ Hk]].
    + split; [apply Hheld; auto|reflexivity].
    + apply lookup_singleton_Some in Hk as [<- <-].
      split; [apply Hheld; auto|reflexivity].
  - intros k a o zs Hk Ho Hzs. rewrite Harea_dict in Hk.
    apply lookup_singleton_Some in Hk as [_ <-]. rewrite Hareas in Ho.
    injection Ho as <-. injection Hzs as <-.
    apply (bool_decide_unpack _). vm_compute. exact I.
Qed.

(** The house, refreshed from the record of the garage. *)
Lemma Area_update_state_replaces_state_witness :
  area_objs (Area_update_state (C := sample_const) 0 (Some "CL") moved_world).2 !! 0
  = Some (mkArea the_gateway "1" "House" false (Some [0; 1]) (Some FULL_SET) "N/A" "N/A").
Proof.
  apply (Area_update_state_replaces_state (C := sample_const) moved_world 0 house_area
           (Some "CL") garage [house]); reflexivity.
Defined.

(** The kitchen, refreshed from a list whose first record has a status the
    enumeration does not know. *)
Lemma Zone_update_state_replaces_state_witness :
  zone_objs (Zone_update_state (C := sample_const) 1 (Some "ZC") moved_world).2 !! 1
  = Some (mkZone (C := sample_const) the_gateway "2" "Kitchen" 0
            (Some CLOSED) (Some ALARM) None).
Proof.
  apply (proj1 (proj2 (Zone_update_state_replaces_state (C := sample_const) moved_world 1
                         kitchen_zone (Some "ZC") (ZoneList [kitchen_closed; hall])
                         kitchen_closed eq_refl eq_refl eq_refl))).
Defined.

(** The kitchen, refreshed twice: the unknown status of the first reply is
    gone after the second. *)
Lemma Zone_update_state_twice_witness :
  zone_objs
    (bind (Zone_update_state (C := sample_const) 1 (Some "ZC"))
       (fun _ => Zone_update_state 1 (Some "ZO")) moved_world).2
  = [hall_zone; kitchen_zone].
Proof.
  apply (Zone_update_state_twice (C := sample_const) moved_world 1 kitchen_zone
           (Some "ZC") (Some "ZO") (ZoneList [kitchen_closed; hall]) (ZoneSingle kitchen)
           kitchen_closed kitchen); reflexivity.
Defined.

(** The house and the kitchen, refreshed against empty lists. *)
Lemma update_state_on_empty_list_witness :
  (Entity_update_state (C := sample_const) (AreaEntity 0) None empty_lists_world).1
  = Raise IndexError /\
  (Entity_update_state (C := sample_const) (ZoneEntity 1) None empty_lists_world).1
  = Raise IndexError.
Proof.
  split.
  - apply (update_state_on_empty_list (C := sample_const) empty_lists_world
             (AreaEntity 0) None eq_refl).
  - apply (update_state_on_empty_list (C := sample_const) empty_lists_world
             (ZoneEntity 1) None eq_refl).
Defined.

Lemma neither_code_ZZ :
  ("ZZ" ∉ Area_SUPPORTED_SIA_CODES) /\ ("ZZ" ∉ Zone_SUPPORTED_SIA_CODES).
Proof. split; apply (bool_decide_eq_false_1 _); vm_compute; reflexivity. Qed.

Lemma zone_code_BR : "BR" ∈ Zone_SUPPORTED_SIA_CODES.
Proof. apply (bool_decide_eq_true_1 _). vm_compute. reflexivity. Qed.

(** ["ZZ"] for the kitchen. *)
Lemma unknown_code_is_ignored_witness :
  _async_ws_handler (C := sample_const) trouble_kitchen loaded_world
  = (Return tt, loaded_world).
Proof.
  apply (unknown_code_is_ignored (C := sample_const) loaded_world trouble_kitchen
           (proj1 neither_code_ZZ) (proj2 neither_code_ZZ)).
Defined.

(** A restoral for the kitchen, on a gateway with an observer. *)
Lemma zone_code_refreshes_the_zone_witness :
  (_async_ws_handler (C := sample_const) restoral_kitchen loaded_world).1 = Return tt /\
  trace (_async_ws_handler (C := sample_const) restoral_kitchen loaded_world).2
  = trace loaded_world ++ [Sent (GET "spc/zone/2"); Notified 0 (ZoneEntity 1)].
Proof.
  rewrite (zone_code_refreshes_the_zone (C := sample_const) loaded_world restoral_kitchen
             1 kitchen_zone 0 (ZoneSingle kitchen) kitchen zone_code_BR).
  - split; reflexivity.
  - vm_compute. reflexivity.
  - reflexivity.
  - reflexivity.
  - reflexivity.
  - reflexivity.
Defined.

(** ["BV"] and a restoral with the controller out of reach: the observer
    hears of both. *)
Lemma handler_notifies_without_data_witness :
  observer_calls
    (trace (_async_ws_handler (C := sample_const) burglary_verified_nowhere offline_world).2)
  = [(0, AreaEntity 0)] /\
  observer_calls
    (trace (_async_ws_handler (C := sample_const) restoral_kitchen offline_world).2)
  = [(0, ZoneEntity 1)].
Proof.
  split.
  - apply (handler_notifies_without_data (C := sample_const) offline_world
             burglary_verified_nowhere (AreaEntity 0) 0).
    + left. split; [exact area_code_BV|]. exists "1", 0.
      split; [vm_compute|]; reflexivity.
    + reflexivity.
    + reflexivity.
  - apply (handler_notifies_without_data (C := sample_const) offline_world
             restoral_kitchen (ZoneEntity 1) 0).
    + right. split; [exact zone_code_BR|]. exists 1.
      split; [vm_compute|]; reflexivity.
    + reflexivity.
    + reflexivity.
Defined.

(** The same messages with empty lists for answers. *)
Lemma handler_raises_on_empty_list_witness :
  (_async_ws_handler (C := sample_const) burglary_verified_nowhere empty_lists_world).1
  = Raise IndexError /\
  (_async_ws_handler (C := sample_const) restoral_kitchen empty_lists_world).1
  = Raise IndexError.
Proof.
  split.
  - apply (handler_raises_on_empty_list (C := sample_const) empty_lists_world
             burglary_verified_nowhere (AreaEntity 0)).
    + left. split; [exact area_code_BV|]. exists "1", 0.
      split; [vm_compute|]; reflexivity.
    + reflexivity.
  - apply (handler_raises_on_empty_list (C := sample_const) empty_lists_world
             restoral_kitchen (ZoneEntity 1)).
    + right. split; [exact zone_code_BR|]. exists 1.
      split; [vm_compute|]; reflexivity.
    + reflexivity.
Defined.

(** A restoral for the kitchen on a gateway without an observer. *)
Lemma handler_without_observer_witness :
  observer_calls (trace (_async_ws_handler (C := sample_const) restoral_kitchen moved_world).2)
  = [].
Proof.
  apply (handler_without_observer (C := sample_const) moved_world restoral_kitchen).
  reflexivity.
Defined.

(** Three calls on the sample installation. *)
Lemma calls_keep_the_registry_witness :
  registry_consistent
    (after_calls loaded_world
       [ Push zone_open_kitchen;
         Command (PyStr "1") (PyAreaMode FULL_SET);
         Push burglary_verified_nowhere ]).
Proof.
  apply (calls_keep_the_registry (C := sample_const) loaded_world).
  exact loaded_world_consistent.
Defined.

(** An identifier that is no key, and no identifier at all. *)
Lemma change_mode_unknown_area_witness :
  change_mode (C := sample_const) (PyStr "2") (PyAreaMode UNSET) loaded_world
  = (Raise AttributeError, loaded_world) /\
  change_mode (C := sample_const) PyNone (PyAreaMode UNSET) loaded_world
  = (Raise AttributeError, loaded_world).
Proof.
  split.
  - apply (change_mode_unknown_area (C := sample_const) loaded_world (PyStr "2") UNSET).
    + intros a. discriminate.
    + vm_compute. reflexivity.
  - apply (change_mode_unknown_area (C := sample_const) loaded_world PyNone UNSET).
    + intros a. discriminate.
    + reflexivity.
Defined.

(** A command that gets no answer, followed by a refresh that does. *)
Lemma change_mode_returns_the_answer_witness :
  (change_mode (C := sample_const) (PyArea 0) (PyAreaMode PART_SET_A) moved_world).1
  = Return None /\
  Area_mode <$>
    area_objs (change_mode (C := sample_const) (PyArea 0) (PyAreaMode PART_SET_A)
                 moved_world).2 !! 0
  = Some (Some FULL_SET).
Proof.
  rewrite (change_mode_returns_the_answer (C := sample_const) moved_world (PyArea 0)
             PART_SET_A 0 house_area garage [house]).
  - split; reflexivity.
  - left. reflexivity.
  - reflexivity.
  - reflexivity.
Defined.

(** The first load from the controller that changes its mind: three records,
    two of them of the house. *)
Lemma load_makes_the_zones_of_the_area_witness :
  zone_objs (async_load_parameters (C := sample_const) (fresh_world None moving)).2
  = [hall_zone; kitchen_zone].
Proof.
  apply (load_makes_the_zones_of_the_area (C := sample_const) (fresh_world None moving)
           hall [kitchen; garage_door] house); reflexivity.
Defined.

(** Two records under ["1"]: the entry is the second zone, not the first. *)
Lemma load_keeps_the_last_zone_witness :
  _zones (gateway twice_loaded_world) !! "1" = Some 1 /\
  _zones (gateway twice_loaded_world) !! "1" ≠ Some 0.
Proof.
  pose proof (load_keeps_the_last_zone (C := sample_const)
                (fresh_world (Some 0) twice_reporting) twice_loaded_world "1") as Hlast.
  split.
  - apply Hlast.
    + repeat split; reflexivity.
    + vm_compute. reflexivity.
    + split; [reflexivity|]. intros [|[|z']] Hz'; [lia|lia|discriminate].
  - intros Hentry. apply Hlast in Hentry as [_ Hnone].
    + apply (Hnone 1); [lia|reflexivity].
    + repeat split; reflexivity.
    + vm_compute. reflexivity.
Defined.

(** ["BV"] right after the sample load. *)
Lemma area_code_after_load_witness :
  (_async_ws_handler (C := sample_const) burglary_verified_nowhere loaded_world).1
  ≠ Raise RuntimeError.
Proof.
  apply (area_code_after_load (C := sample_const) (fresh_world (Some 0) sample_controller)
           loaded_world burglary_verified_nowhere).
  - repeat split; reflexivity.
  - vm_compute. reflexivity.
  - exact area_code_BV.
Defined.

(** A restoral for the kitchen right after the sample load. *)
Lemma zone_code_after_load_witness :
  exists rest : list Event,
    trace (_async_ws_handler (C := sample_const) restoral_kitchen loaded_world).2
    = trace loaded_world ++ Sent (GET "spc/zone/2") :: rest.
Proof.
  apply (zone_code_after_load (C := sample_const) (fresh_world (Some 0) sample_controller)
           loaded_world restoral_kitchen 1 kitchen_zone).
  - repeat split; reflexivity.
  - vm_compute. reflexivity.
  - apply (bool_decide_unpack _). vm_compute. exact I.
  - reflexivity.
  - exact zone_code_BR.
  - reflexivity.
Defined.

(** Unsetting the house by its identifier right after the sample load. *)
Lemma change_mode_after_load_witness :
  trace (change_mode (C := sample_const) (PyStr "1") (PyAreaMode UNSET) loaded_world).2
  = trace loaded_world ++ [Sent (PUT "spc/area/1/unset"); Sent (GET "spc/area/1")].
Proof.
  apply (change_mode_after_load (C := sample_const) (fresh_world (Some 0) sample_controller)
           loaded_world 0 house_area UNSET).
  - repeat split; reflexivity.
  - vm_compute. reflexivity.
  - reflexivity.
Defined.

(** The sample panel record has a type and a serial number, and no ["data"]. *)
Lemma serial_number_after_load_witness :
  serial_number (gateway (async_load_parameters (C := sample_const)
                            (fresh_world None silent)).2) = Raise TypeError /\
  serial_number (gateway (async_load_parameters (C := sample_const)
                            (fresh_world (Some 0) sample_controller)).2) = Raise KeyError.
Proof.
  split.
  - apply (proj1 (proj2 (serial_number_after_load (C := sample_const)
                           (fresh_world None silent) None))).
    reflexivity.
  - apply (proj2 (proj2 (serial_number_after_load (C := sample_const)
                           (fresh_world (Some 0) sample_controller) None))
             [("type", JStr "SPC4000"); ("sn", JStr "123456")]).
    + reflexivity.
    + apply (bool_decide_unpack _). vm_compute. exact I.
Defined.

(** A second load, which finds the garage: two areas, and ["BV"] raises. *)
Lemma second_area_breaks_area_codes_witness :
  _async_ws_handler (C := sample_const) burglary_verified_nowhere
    (async_load_parameters moved_world).2
  = (Raise RuntimeError, (async_load_parameters moved_world).2).
Proof.
  apply (second_area_breaks_area_codes (C := sample_const) moved_world
           hall [kitchen; garage_door] garage burglary_verified_nowhere).
  - vm_compute. reflexivity.
  - vm_compute. reflexivity.
  - reflexivity.
  - reflexivity.
  - exact area_code_BV.
Defined.
